(** * oslo-quant: the strategy layer ([python/strategy/_classes.py])

    A shallow embedding of the classes [Order], [Share] and [Strategy] and of
    the collaborators they call ([markets], [broker]), followed by the
    properties of the point-in-time view, of order filling and of share
    valuation.

    Conventions of the embedding:
    - a Python [float] is an IEEE 754 binary64 number ([PrimFloat.float]); a
      Python [int] is a [Z]; a [datetime.date] is its proleptic ordinal
      ([date.toordinal()]), a [Z], since the code only compares dates and
      prints them;
    - an exception is a value of [exn]; a computation that may raise returns a
      [result];
    - [Instrument] objects are shared by reference between the market-data
      store and its callers, so they live in a heap ([gmap loc Instrument.t])
      which the methods of [Strategy] thread through ([M]). *)

From Stdlib Require Import ZArith PrimFloat SpecFloat FloatOps Sorted.
From stdpp Require Import gmap strings list pretty.

Set Warnings "-inexact-float".

Abbreviation datetime_date := Z (only parsing).
Abbreviation loc := nat (only parsing).

(** ** Python values: exceptions, results, numbers *)

Inductive exn : Type :=
  | ValueError (msg : string)
  | KeyError (key : string)
  | OverflowError (msg : string)
  | NotFound                      (* the store's "no record at or before" *)
  | SystemError.                  (* a reference to no object: not reachable from Python *)

Inductive result (A : Type) : Type :=
  | Ok (a : A)
  | Raise (e : exn).
Arguments Ok {A} a.
Arguments Raise {A} e.

(** [float(n)] for an [int] [n]: the nearest binary64 number, ties to even;
    [OverflowError] when [n] is beyond the range of the format. *)
Definition int_to_float (n : Z) : result float :=
  let f := SF2Prim (binary_normalize prec emax n 0 false) in
  if PrimFloat.is_infinity f
  then Raise (OverflowError "int too large to convert to float")
  else Ok f.

(** [n * x] for an [int] [n] and a [float] [x]: [float.__rmul__] converts
    [n] first. *)
Definition mul_int_float (n : Z) (x : float) : result float :=
  match int_to_float n with
  | Ok f => Ok (f * x)%float
  | Raise e => Raise e
  end.

(** [np.delete(arr, np.s_[start:])] on a one-dimensional array, for
    [start >= 0]: a new array without the positions [start], [start + 1], ...;
    a [start] past the end deletes nothing. *)
Definition np_delete_from {A : Type} (arr : list A) (start : nat) : list A :=
  take start arr.

(** ** The market data: records and instruments *)

Module TimeRecord.

(** One row of an instrument's table (the columns the spider stores).
    [close] and [value] may be missing from a row. *)
Record t : Type := mk {
  date : Z;
  open : float;
  high : float;
  low : float;
  close : option float;
  volume : Z;
  value : option float
}.

(** [day_data['close']] and [day_data['value']]. *)
Definition getitem_close (day_data : t) : result float :=
  match close day_data with
  | Some c => Ok c
  | None => Raise (KeyError "close")
  end.

Definition getitem_value (day_data : t) : result float :=
  match value day_data with
  | Some v => Ok v
  | None => Raise (KeyError "value")
  end.

End TimeRecord.

Module Instrument.

Record t : Type := mk {
  ticker : string;
  data : list TimeRecord.t
}.

(** [instrument.data = new_data] *)
Definition set_data (self : t) (new_data : list TimeRecord.t) : t :=
  mk (ticker self) new_data.

(** Modelled from the spec: [Instrument.get_first_date] and
    [Instrument.get_last_date] are missing from the sources; they are "the
    bounds of the record sequence". With no record there is no bound
    ([None]). *)
Definition get_first_date (self : t) : option datetime_date :=
  head (TimeRecord.date <$> data self).

Definition get_last_date (self : t) : option datetime_date :=
  last (TimeRecord.date <$> data self).

(** Modelled from the spec: [Instrument.existed_at_date] is missing from the
    sources; it is "true iff the instrument has at least one record on or
    before [date]". *)
Definition existed_at_date (self : t) (date : datetime_date) : bool :=
  existsb (fun r => TimeRecord.date r <=? date)%Z (data self).

(** Modelled from the spec: the resolution rule shared by
    [Instrument.get_day_or_last_before] and
    [Instrument.get_day_index_or_last_before], both missing from the
    sources: "the record at [date] if present; otherwise the most recent
    record strictly before [date]". [find_day] looks for the record at
    [date]; [scan_before] keeps, among the records strictly before [date],
    the one with the greatest date. Both carry the position [k] of the head
    of the list they walk. *)
Fixpoint find_day (date : datetime_date) (records : list TimeRecord.t) (k : nat)
    : option (nat * TimeRecord.t) :=
  match records with
  | [] => None
  | r :: records' =>
      if (TimeRecord.date r =? date)%Z then Some (k, r)
      else find_day date records' (S k)
  end.

Definition more_recent (best : option (nat * TimeRecord.t))
    (k : nat) (r : TimeRecord.t) : option (nat * TimeRecord.t) :=
  match best with
  | None => Some (k, r)
  | Some (_, b) =>
      if (TimeRecord.date b <? TimeRecord.date r)%Z then Some (k, r) else best
  end.

Fixpoint scan_before (date : datetime_date) (records : list TimeRecord.t) (k : nat)
    (best : option (nat * TimeRecord.t)) : option (nat * TimeRecord.t) :=
  match records with
  | [] => best
  | r :: records' =>
      scan_before date records' (S k)
        (if (TimeRecord.date r <? date)%Z then more_recent best k r else best)
  end.

Definition resolve (date : datetime_date) (records : list TimeRecord.t)
    : option (nat * TimeRecord.t) :=
  match find_day date records 0 with
  | Some found => Some found
  | None => scan_before date records 0 None
  end.

(** Modelled from the spec: "[get_day_or_last_before(date) -> TimeRecord] ...
    Fails with [NotFound] if no such record exists". *)
Definition get_day_or_last_before (self : t) (date : datetime_date)
    : result TimeRecord.t :=
  match resolve date (data self) with
  | Some (_, r) => Ok r
  | None => Raise NotFound
  end.

(** Modelled from the spec: "[get_day_index_or_last_before(date) -> index]:
    same resolution rule, returning a position instead of a record". *)
Definition get_day_index_or_last_before (self : t) (date : datetime_date)
    : result nat :=
  match resolve date (data self) with
  | Some (k, _) => Ok k
  | None => Raise NotFound
  end.

(** The order of the records. The spider sorts the rows by date before they
    are stored ([ascending]); the data model asks for more, strictly
    increasing dates ([ordered]). *)
Fixpoint sorted_by (before : Z -> Z -> bool) (dates : list Z) : bool :=
  match dates with
  | [] => true
  | d :: dates' =>
      match dates' with
      | [] => true
      | d' :: _ => before d d' && sorted_by before dates'
      end
  end.

Definition ascending (self : t) : bool :=
  sorted_by Z.leb (TimeRecord.date <$> data self).

Definition ordered (self : t) : bool :=
  sorted_by Z.ltb (TimeRecord.date <$> data self).

End Instrument.

(** ** The heap of instrument objects and the monad of the methods *)

Abbreviation heap := (gmap nat Instrument.t) (only parsing).

Definition M (A : Type) : Type := heap -> heap * result A.

Definition ret {A : Type} (a : A) : M A := fun h => (h, Ok a).

Definition raise {A : Type} (e : exn) : M A := fun h => (h, Raise e).

Definition bind {A B : Type} (m : M A) (k : A -> M B) : M B :=
  fun h =>
    match m h with
    | (h', Ok a) => k a h'
    | (h', Raise e) => (h', Raise e)
    end.

Definition lift {A : Type} (r : result A) : M A := fun h => (h, r).

Declare Scope py_scope.
Delimit Scope py_scope with py.
Notation "x <- m ;; k" := (bind m (fun x => k))
  (at level 100, m at next level, right associativity) : py_scope.
Notation "m ;;; k" := (bind m (fun _ => k))
  (at level 100, right associativity) : py_scope.

(** Reading an object through a reference, and calling a method that only
    reads it. *)
Definition load (l : loc) : M Instrument.t :=
  fun h =>
    match h !! l with
    | Some i => (h, Ok i)
    | None => (h, Raise SystemError)
    end.

Definition call {B : Type} (l : loc) (method : Instrument.t -> B) : M B :=
  (i <- load l ;; ret (method i))%py.

Definition call_raising {B : Type} (l : loc) (method : Instrument.t -> result B)
    : M B :=
  (i <- load l ;; lift (method i))%py.

(** [instrument.data = new_data]: the attribute of the object at [l] is
    rebound; every holder of [l] sees it. *)
Definition setattr_data (l : loc) (new_data : list TimeRecord.t) : M unit :=
  fun h =>
    match h !! l with
    | Some i => (<[l := Instrument.set_data i new_data]> h, Ok tt)
    | None => (h, Raise SystemError)
    end.

(** [copy.deepcopy(obj)]: a new object, at a location not in use, with the
    same contents. *)
Definition deepcopy (l : loc) : M loc :=
  fun h =>
    match h !! l with
    | Some i => let l' := fresh (dom h) in (<[l' := i]> h, Ok l')
    | None => (h, Raise SystemError)
    end.

(** [try: body  except ValueError: pass]: [None] when [body] raised
    [ValueError]; any other exception goes through. *)
Definition try_except_ValueError {A : Type} (body : M A) : M (option A) :=
  fun h =>
    match body h with
    | (h', Ok a) => (h', Ok (Some a))
    | (h', Raise (ValueError _)) => (h', Ok None)
    | (h', Raise e) => (h', Raise e)
    end.

(** ** The collaborators *)

Module markets.

(** The market-data module, as [Strategy] and [Share] use it. The module is
    missing from the sources, so its functions are fields of a record that the
    methods take as a parameter. Its instruments are objects of the heap,
    handed out by reference; [get_tickers] is the list of tickers in the order
    in which the collaborator iterates them. *)
Record t : Type := mk {
  get_instrument : string -> result loc;
  get_tickers : list string;
  trading_days : datetime_date -> datetime_date -> list datetime_date;
  trading_days_ago : datetime_date -> Z -> result datetime_date
}.

End markets.

(** ** [class Order] *)

Module Order.

(** [brokerage] and [total] are attributes that [__init__] does not create;
    [None] stands for the missing attribute there, and for Python's [None]
    in [price], [filled_price] and [cost]. *)
Record t : Type := mk {
  ticker : string;
  action : string;
  quantity : Z;
  price : option float;
  filled : bool;
  filled_price : option float;
  cost : option float;
  brokerage : option float;
  total : option float
}.

Definition __init__ (ticker action : string) (quantity : Z)
    (price : option float) : t :=
  mk ticker action quantity price false None None None None.

Definition set_filled_price (self : t) (v : option float) : t :=
  mk (ticker self) (action self) (quantity self) (price self)
     (filled self) v (cost self) (brokerage self) (total self).

Definition set_filled (self : t) (v : bool) : t :=
  mk (ticker self) (action self) (quantity self) (price self)
     v (filled_price self) (cost self) (brokerage self) (total self).

Definition set_brokerage (self : t) (v : option float) : t :=
  mk (ticker self) (action self) (quantity self) (price self)
     (filled self) (filled_price self) (cost self) v (total self).

Definition set_cost (self : t) (v : option float) : t :=
  mk (ticker self) (action self) (quantity self) (price self)
     (filled self) (filled_price self) v (brokerage self) (total self).

Definition set_total (self : t) (v : option float) : t :=
  mk (ticker self) (action self) (quantity self) (price self)
     (filled self) (filled_price self) (cost self) (brokerage self) v.

(** The order as [broker.calculate_brokerage] receives it from [fill]:
    price and flag already assigned. *)
Definition as_seen_by_broker (self : t) (filled_price : float) : t :=
  set_filled (set_filled_price self (Some filled_price)) true.

Section Fill.

(** [broker.calculate_brokerage] *)
Variable calculate_brokerage : t -> float.

(** [Order.fill]: the order after the call, and how the call ended. The
    attributes are assigned one after the other, so an exception leaves
    the earlier assignments in place. *)
Definition fill (self : t) (filled_price : float) : t * result unit :=
  let self := set_filled_price self (Some filled_price) in
  let self := set_filled self true in
  let fee := calculate_brokerage self in
  let self := set_brokerage self (Some fee) in
  match mul_int_float (quantity self) filled_price with
  | Raise e => (self, Raise e)
  | Ok c =>
      let self := set_cost self (Some c) in
      let self := set_total self (Some (c + fee)%float) in
      (self, Ok tt)
  end.

End Fill.

(** What [__str__] raises: [round(None, 2)] is a [TypeError], reading an
    attribute that was never assigned an [AttributeError], and [%d] on an
    [int] with more decimal digits than the interpreter converts a
    [ValueError]. *)
Inductive str_exn : Type :=
  | TypeError (msg : string)
  | AttributeError (msg : string)
  | ValueError (msg : string).

Section Str.

(** [sys.get_int_max_str_digits()]: the greatest number of decimal digits of
    an [int] that the interpreter converts to text; 0 stands for no limit.
    CPython starts with 4300 since 3.11 (interpreters without the limit
    behave as with 0) and accepts 0 or a number from 640 on. *)
Variable int_max_str_digits : Z.

(** [round(x, 2)] and [str(x)] on a [float]. *)
Variable round2 : float -> float.
Variable str_float : float -> string.

(** ["%d" % n] for an [int] [n]: its decimal digits, with the sign, which
    does not count for the limit. *)
Definition format_d (n : Z) : str_exn + string :=
  if (0 <? int_max_str_digits)%Z && (10 ^ int_max_str_digits <=? Z.abs n)%Z
  then inl (ValueError
              ("Exceeds the limit (" +:+ pretty int_max_str_digits +:+
               " digits) for integer string conversion; " +:+
               "use sys.set_int_max_str_digits() to increase the limit"))
  else inr (pretty n).

(** [Order.__str__]. The quantity goes through [%d], the prices through
    [str(round(_, 2))]. *)
Definition __str__ (self : t) : str_exn + string :=
  match format_d (quantity self) with
  | inl raised => inl raised
  | inr digits =>
  let s := action self +:+ " " +:+ digits +:+ " " +:+ ticker self in
  let s := match price self with
           | None => s +:+ ", market price"
           | Some limit => s +:+ ", limit: " +:+ str_float (round2 limit)
           end in
  if filled self then
    match filled_price self with
    | None => inl (TypeError "type NoneType doesn't define __round__ method")
    | Some x =>
        let s := s +:+ ", filled: " +:+ str_float (round2 x) in
        match cost self with
        | None =>
            inl (TypeError "type NoneType doesn't define __round__ method")
        | Some c =>
            let s := s +:+ ", cost: " +:+ str_float (round2 c) in
            match brokerage self with
            | None =>
                inl (AttributeError
                       "'Order' object has no attribute 'brokerage'")
            | Some b =>
                let s := s +:+ ", brokerage: " +:+ str_float (round2 b) in
                match total self with
                | None =>
                    inl (AttributeError
                           "'Order' object has no attribute 'total'")
                | Some t => inr (s +:+ ", total: " +:+ str_float (round2 t))
                end
            end
        end
    end
  else inr (s +:+ ", open")
  end.

End Str.

(** The two states an order is meant to be in: nothing of the fill recorded,
    or all of it. *)
Definition is_open (o : t) : Prop :=
  filled o = false /\ filled_price o = None /\ cost o = None /\
  brokerage o = None /\ total o = None.

Definition is_settled (o : t) : Prop :=
  filled o = true /\ is_Some (filled_price o) /\ is_Some (cost o) /\
  is_Some (brokerage o) /\ is_Some (total o).

(** The orders one gets from the constructor by calls of [fill] that
    return. *)
Inductive placed (calculate_brokerage : t -> float) : t -> Prop :=
  | placed_new ticker action quantity price :
      placed calculate_brokerage (__init__ ticker action quantity price)
  | placed_fill o p :
      placed calculate_brokerage o ->
      (fill calculate_brokerage o p).2 = Ok tt ->
      placed calculate_brokerage (fill calculate_brokerage o p).1.

End Order.

(** ** [class Share] *)

Module Share.

Record t : Type := mk {
  ticker : string;
  quantity : Z;
  price : float
}.

Definition __init__ (ticker : string) (quantity : Z) (price : float) : t :=
  mk ticker quantity price.

Section GetValue.

Variable mkt : markets.t.

(** [try: day_data['close']  except KeyError: day_data['value']] *)
Definition current_price (day_data : TimeRecord.t) : result float :=
  match TimeRecord.getitem_close day_data with
  | Ok c => Ok c
  | Raise (KeyError _) => TimeRecord.getitem_value day_data
  | Raise e => Raise e
  end.

Definition get_value (self : t) (date : datetime_date) : M float :=
  (instrument <- lift (markets.get_instrument mkt (ticker self)) ;;
   day_data <- call_raising instrument
                 (fun i => Instrument.get_day_or_last_before i date) ;;
   current_price <- lift (current_price day_data) ;;
   lift (mul_int_float (quantity self) current_price))%py.

End GetValue.

End Share.

(** ** [class Strategy] *)

Module Strategy.

Record t : Type := mk {
  money : float;
  portfolio : gmap string Share.t;
  today : datetime_date;
  from_date : datetime_date;
  to_date : datetime_date
}.

Definition __init__ (money : float) (portfolio : gmap string Share.t)
    (from_date to_date : datetime_date) : t :=
  mk money portfolio from_date from_date to_date.

(** The base [execute]: three assignments and no [return], so the caller
    gets Python's [None] where a list of orders is documented. *)
Definition execute (self : t) (today : datetime_date)
    (portfolio : gmap string Share.t) (money : float)
    : t * option (list Order.t) :=
  let self := mk (Strategy.money self) (Strategy.portfolio self) today
                 (from_date self) (to_date self) in
  let self := mk (Strategy.money self) portfolio (Strategy.today self)
                 (from_date self) (to_date self) in
  let self := mk money (Strategy.portfolio self) (Strategy.today self)
                 (from_date self) (to_date self) in
  (self, None).

Section Queries.

Variable mkt : markets.t.

(** [str] on a [datetime.date], and on what [get_first_date] and
    [get_last_date] return. *)
Variable str_date : datetime_date -> string.

Definition str_bound (d : option datetime_date) : string :=
  match d with
  | Some d => str_date d
  | None => "None"
  end.

(** The message of the [ValueError] of [get_instrument]. *)
Definition didnt_exist (ticker : string) (today : datetime_date)
    (first last : option datetime_date) : string :=
  "'" +:+ ticker +:+ "' didn't exist at " +:+ str_date today +:+
  ", first date: " +:+ str_bound first +:+
  ", last date: " +:+ str_bound last.

Definition get_instrument (self : t) (ticker : string) : M loc :=
  (shared <- lift (markets.get_instrument mkt ticker) ;;
   instrument <- deepcopy shared ;;
   existed <- call instrument
                (fun i => Instrument.existed_at_date i (today self)) ;;
   if negb existed then
     first <- call instrument Instrument.get_first_date ;;
     last <- call instrument Instrument.get_last_date ;;
     raise (ValueError (didnt_exist ticker (today self) first last))
   else
     row_index <- call_raising instrument
                    (fun i => Instrument.get_day_index_or_last_before i
                                (today self)) ;;
     data <- call instrument Instrument.data ;;
     setattr_data instrument (np_delete_from data (row_index + 1)) ;;;
     ret instrument)%py.

(** The [for] loop of [get_instruments]. *)
Fixpoint get_instruments_loop (self : t) (all_instruments : list string)
    (todays_instruments : list loc) : M (list loc) :=
  match all_instruments with
  | [] => ret todays_instruments
  | t :: rest =>
      (caught <- try_except_ValueError (get_instrument self t) ;;
       match caught with
       | Some i => get_instruments_loop self rest (todays_instruments ++ [i])
       | None => get_instruments_loop self rest todays_instruments
       end)%py
  end.

Definition get_instruments (self : t) : M (list loc) :=
  get_instruments_loop self (markets.get_tickers mkt) [].

(** [trading_days] is a generator; the list is what it yields, item by
    item. Its body is a single [yield] of the collaborator's result. *)
Definition trading_days (self : t) (from_date to_date : datetime_date)
    : list (list datetime_date) :=
  [markets.trading_days mkt from_date to_date].

Definition trading_days_ago (self : t) (days : Z) : result datetime_date :=
  markets.trading_days_ago mkt (today self) days.

End Queries.

End Strategy.

(** ** What the queries are compared with *)

Section PointInTime.

Variable mkt : markets.t.

(** The store's object for [ticker], if the store has one in [h]. *)
Definition shared_instrument (h : heap) (ticker : string)
    : option Instrument.t :=
  match markets.get_instrument mkt ticker with
  | Ok l => h !! l
  | Raise _ => None
  end.

(** "[ticker] exists at [today]". *)
Definition exists_at (today : datetime_date) (h : heap) (ticker : string)
    : bool :=
  match shared_instrument h ticker with
  | Some i => Instrument.existed_at_date i today
  | None => false
  end.

(** The records of [i] up to and including position [row_index]. *)
Definition truncated (i : Instrument.t) (row_index : nat) : Instrument.t :=
  Instrument.set_data i (take (S row_index) (Instrument.data i)).

(** The point-in-time view of [i] at [today]: [i] cut after the position
    that [today] resolves to. *)
Definition point_in_time (today : datetime_date) (i : Instrument.t)
    : option Instrument.t :=
  match Instrument.get_day_index_or_last_before i today with
  | Ok row_index => Some (truncated i row_index)
  | Raise _ => None
  end.

(** The object at [view] in [h'] is the point-in-time view of the store's
    instrument for [ticker] in [h]. *)
Definition is_view_of (today : datetime_date) (h h' : heap)
    (ticker : string) (view : loc) : Prop :=
  exists i v, shared_instrument h ticker = Some i /\
              point_in_time today i = Some v /\
              h' !! view = Some v.

(** Every ticker the store lists has its instrument in the heap. *)
Definition listed_tickers_loaded (h : heap) : Prop :=
  Forall (fun t => is_Some (shared_instrument h t)) (markets.get_tickers mkt).

End PointInTime.

(** Alphabetical order of tickers ([str.__le__], the order of code points):
    the iteration order that the spec gives [markets.get_tickers]. *)
Definition alphabetical (tickers : list string) : Prop :=
  StronglySorted (fun a b => String.leb a b = true) tickers.

(** ** A small market, for the worked cases

    "ACME" has records on 2020-01-02 (close 10.0) and 2020-01-06 (close 12.0);
    "ZETA" starts on 2020-01-06 and has no close on that day. The dates are
    ordinals: 2020-01-01 is 737425. *)

Module Scenario.

Definition row (date : datetime_date) (close value : option float)
    : TimeRecord.t :=
  TimeRecord.mk date 0%float 0%float 0%float close 0 value.

Definition acme : Instrument.t :=
  Instrument.mk "ACME"
    [row 737426 (Some 10%float) None; row 737430 (Some 12%float) None].

Definition zeta : Instrument.t :=
  Instrument.mk "ZETA" [row 737430 None (Some 25%float)].

Definition store : heap := <[1%nat := zeta]> (<[0%nat := acme]> ∅).

Definition lookup (ticker : string) : result loc :=
  if String.eqb ticker "ACME" then Ok 0%nat
  else if String.eqb ticker "ZETA" then Ok 1%nat
  else Raise (KeyError ticker).

Definition calendar (from_date to_date : datetime_date)
    : list datetime_date :=
  List.filter (fun d => (from_date <=? d)%Z && (d <=? to_date)%Z)
    [737426; 737430]%Z.

Definition mkt : markets.t :=
  markets.mk lookup ["ACME"; "ZETA"] calendar (fun _ _ => Raise NotFound).

(** The same store, listing its tickers in the other order. *)
Definition mkt_reversed : markets.t :=
  markets.mk lookup ["ZETA"; "ACME"] calendar (fun _ _ => Raise NotFound).

(** A stand-in for [str] on dates: the ordinal in decimal. *)
Definition str_date (d : datetime_date) : string := pretty d.

Definition strategy (today : datetime_date) : Strategy.t :=
  Strategy.mk 1000%float ∅ today 737425 737435.

(** The fee schedule of the worked case: 2.50 on every order. *)
Definition flat_fee (o : Order.t) : float := 2.5%float.

Definition buy_100 : Order.t :=
  Order.__init__ "ACME" "buy" 100 (Some 5%float).

(** The same order once filled at 5.10. *)
Definition bought : Order.t := (Order.fill flat_fee buy_100 5.1).1.

End Scenario.

(** ** More cases: a row without prices, tickers the store cannot serve, an
    order too large for a float *)

Module Cases.

Definition bare : Instrument.t :=
  Instrument.mk "BARE" [Scenario.row 737426 None None].

Definition store : heap := <[2%nat := bare]> Scenario.store.

(** "GONE" is listed but the store raises [KeyError] for it; for "VOID" it
    raises [ValueError]. *)
Definition lookup (ticker : string) : result loc :=
  if String.eqb ticker "BARE" then Ok 2%nat
  else if String.eqb ticker "VOID" then Raise (ValueError "no such paper")
  else Scenario.lookup ticker.

Definition mkt_gone : markets.t :=
  markets.mk lookup ["ACME"; "GONE"; "ZETA"] Scenario.calendar
    (fun _ _ => Raise NotFound).

Definition mkt_void : markets.t :=
  markets.mk lookup ["ACME"; "VOID"; "ZETA"] Scenario.calendar
    (fun _ _ => Raise NotFound).


(** An order whose quantity, 10^4300, has 4301 digits. *)
Definition buy_astronomic : Order.t :=
  Order.__init__ "ACME" "buy" (10 ^ 4300) None.

(** A stand-in for [str(round(x, 2))]: the rounding is left out and the text
    does not depend on the number. *)
Definition round2 (x : float) : float := x.
Definition str_float (x : float) : string := "x".

End Cases.

(** * Properties *)

(** ** The resolution rule of the store *)

Section Resolution.

Implicit Types (records : list TimeRecord.t) (r : TimeRecord.t).
Implicit Types (best : option (nat * TimeRecord.t)).

Lemma find_day_Some d records k0 k r :
  Instrument.find_day d records k0 = Some (k, r) ->
  exists j, k = (k0 + j)%nat /\ records !! j = Some r /\ TimeRecord.date r = d.
Proof.
  revert k0. induction records as [|r0 records IH]; intros k0; simpl.
  - discriminate.
  - destruct (Z.eqb_spec (TimeRecord.date r0) d) as [Heq|Hne].
    + intros [= <- <-]. exists 0%nat. split; [lia|done].
    + intros H. apply IH in H as (j & -> & Hj & Hd).
      exists (S j). split; [lia|done].
Qed.

Lemma find_day_None d records k0 :
  Instrument.find_day d records k0 = None ->
  Forall (fun r => TimeRecord.date r <> d) records.
Proof.
  revert k0. induction records as [|r0 records IH]; intros k0; simpl.
  - constructor.
  - destruct (Z.eqb_spec (TimeRecord.date r0) d) as [Heq|Hne]; [discriminate|].
    intros H. constructor; [done|by eapply IH].
Qed.

Lemma more_recent_is_Some best k r :
  is_Some (Instrument.more_recent best k r).
Proof.
  unfold Instrument.more_recent. destruct best as [[j b]|]; [|by eexists].
  destruct (_ <? _)%Z; by eexists.
Qed.

(** What [scan_before] returns is the candidate it was given or a record of
    the list strictly before [d]. *)
Lemma scan_before_Some d records k0 best k r :
  Instrument.scan_before d records k0 best = Some (k, r) ->
  best = Some (k, r) \/
  exists j, k = (k0 + j)%nat /\ records !! j = Some r /\
            (TimeRecord.date r < d)%Z.
Proof.
  revert k0 best. induction records as [|r0 records IH]; intros k0 best; simpl.
  - by left.
  - intros H. apply IH in H as [H|(j & -> & Hj & Hd)].
    + destruct (Z.ltb_spec (TimeRecord.date r0) d) as [Hlt|Hge]; [|by left].
      unfold Instrument.more_recent in H.
      destruct best as [[jb b]|].
      * destruct (_ <? _)%Z; [|by left].
        injection H as <- <-. right. exists 0%nat. split; [lia|done].
      * injection H as <- <-. right. exists 0%nat. split; [lia|done].
    + right. exists (S j). split; [lia|done].
Qed.

(** It returns the most recent of them: no record strictly before [d], and
    no candidate, is more recent than its result. *)
Lemma scan_before_latest d records k0 best k r :
  Instrument.scan_before d records k0 best = Some (k, r) ->
  (forall jb b, best = Some (jb, b) ->
                (TimeRecord.date b <= TimeRecord.date r)%Z) /\
  Forall (fun r' => (TimeRecord.date r' < d)%Z ->
                    (TimeRecord.date r' <= TimeRecord.date r)%Z) records.
Proof.
  revert k0 best. induction records as [|r0 records IH]; intros k0 best; simpl.
  - intros ->. split; [|constructor]. intros jb b [= _ ->]. lia.
  - intros H. apply IH in H as [Hbest Htail].
    destruct (Z.ltb_spec (TimeRecord.date r0) d) as [Hlt|Hge].
    + unfold Instrument.more_recent in Hbest.
      destruct best as [[jb b]|].
      * destruct (Z.ltb_spec (TimeRecord.date b) (TimeRecord.date r0)).
        -- specialize (Hbest _ _ eq_refl). split.
           ++ intros ? ? [= _ ->]. lia.
           ++ constructor; [lia|done].
        -- specialize (Hbest _ _ eq_refl). split.
           ++ intros ? ? [= _ ->]. lia.
           ++ constructor; [lia|done].
      * specialize (Hbest _ _ eq_refl). split; [discriminate|].
        constructor; [lia|done].
    + split; [done|]. constructor; [lia|done].
Qed.

Lemma scan_before_None d records k0 best :
  Instrument.scan_before d records k0 best = None ->
  best = None /\ Forall (fun r => (d <= TimeRecord.date r)%Z) records.
Proof.
  revert k0 best. induction records as [|r0 records IH]; intros k0 best; simpl.
  - intros ->. split; [done|constructor].
  - intros H. apply IH in H as [Hbest Htail].
    destruct (Z.ltb_spec (TimeRecord.date r0) d) as [Hlt|Hge].
    + destruct (more_recent_is_Some best k0 r0) as [x Hx]. congruence.
    + split; [done|]. constructor; [lia|done].
Qed.

(** The resolved record is in the sequence, at the resolved position, and
    is not after [d]. *)
Lemma resolve_Some d records k r :
  Instrument.resolve d records = Some (k, r) ->
  records !! k = Some r /\ (TimeRecord.date r <= d)%Z.
Proof.
  unfold Instrument.resolve.
  destruct (Instrument.find_day d records 0) as [[k' r']|] eqn:Hfind.
  - intros [= -> ->]. apply find_day_Some in Hfind as (j & -> & Hj & Hd).
    split; [done|lia].
  - intros H. apply scan_before_Some in H as [H|(j & -> & Hj & Hd)];
      [discriminate|]. split; [done|lia].
Qed.

(** Every record that is not after [d] is not after the resolved one. *)
Lemma resolve_latest d records k r :
  Instrument.resolve d records = Some (k, r) ->
  Forall (fun r' => (TimeRecord.date r' <= d)%Z ->
                    (TimeRecord.date r' <= TimeRecord.date r)%Z) records.
Proof.
  unfold Instrument.resolve.
  destruct (Instrument.find_day d records 0) as [[k' r']|] eqn:Hfind.
  - intros [= -> ->]. apply find_day_Some in Hfind as (j & _ & _ & Hd).
    apply Forall_forall. intros r' _ ?. lia.
  - intros H. apply find_day_None in Hfind.
    apply scan_before_latest in H as [_ H].
    rewrite Forall_forall in *. intros r' Hin Hle.
    specialize (Hfind r' Hin). apply (H r' Hin). lia.
Qed.

Lemma resolve_None d records :
  Instrument.resolve d records = None ->
  Forall (fun r => (d < TimeRecord.date r)%Z) records.
Proof.
  unfold Instrument.resolve.
  destruct (Instrument.find_day d records 0) as [[k' r']|] eqn:Hfind;
    [discriminate|].
  intros H. apply find_day_None in Hfind. apply scan_before_None in H as [_ H].
  rewrite Forall_forall in *. intros r' Hin.
  specialize (Hfind r' Hin). specialize (H r' Hin). simpl in *. lia.
Qed.

(** The lookup succeeds exactly on the dates at which the instrument
    existed. *)
Lemma existed_resolve i d :
  Instrument.existed_at_date i d = true ->
  exists k r, Instrument.resolve d (Instrument.data i) = Some (k, r).
Proof.
  unfold Instrument.existed_at_date. intros H.
  apply existsb_exists in H as (r0 & Hin & Hle).
  destruct (Instrument.resolve d (Instrument.data i)) as [[k r]|] eqn:Hres;
    [by eauto|].
  apply resolve_None in Hres. rewrite Forall_forall in Hres.
  apply list_elem_of_In in Hin. specialize (Hres r0 Hin). simpl in Hres. lia.
Qed.

Lemma resolve_existed i d k r :
  Instrument.resolve d (Instrument.data i) = Some (k, r) ->
  Instrument.existed_at_date i d = true.
Proof.
  intros H. apply resolve_Some in H as [Hk Hle].
  unfold Instrument.existed_at_date. apply existsb_exists.
  exists r. split; [|lia].
  apply list_elem_of_In, list_elem_of_lookup. eauto.
Qed.

End Resolution.

(** ** Ordered records and truncation *)

Section Ordered.

Lemma sorted_by_cons before (R : relation Z) `{!Transitive R} d ds :
  (forall a b, before a b = true -> R a b) ->
  Instrument.sorted_by before (d :: ds) = true ->
  Forall (R d) ds /\ Instrument.sorted_by before ds = true.
Proof.
  intros Hbefore. revert d. induction ds as [|d' ds IH]; intros d.
  - split; [constructor|done].
  - cbn [Instrument.sorted_by]. intros [Hhead Hrest]%andb_prop.
    apply Hbefore in Hhead. split; [|done].
    destruct (IH d' Hrest) as [Hall _]. constructor; [done|].
    eapply Forall_impl; [exact Hall|]. intros x ?. by etrans.
Qed.

Lemma sorted_by_lookup before (R : relation Z) `{!Transitive R} ds j k dj dk :
  (forall a b, before a b = true -> R a b) ->
  Instrument.sorted_by before ds = true ->
  ds !! j = Some dj -> ds !! k = Some dk -> (j < k)%nat -> R dj dk.
Proof.
  intros Hbefore. revert j k.
  induction ds as [|d ds IH]; intros j k Hs Hj Hk Hjk.
  - done.
  - apply (sorted_by_cons before R) in Hs as [Hall Hs]; [|done].
    destruct k as [|k]; [lia|]. simpl in Hk.
    destruct j as [|j].
    + injection Hj as <-. rewrite Forall_forall in Hall.
      apply Hall, list_elem_of_lookup. eauto.
    + simpl in Hj. apply (IH j k); [done..|lia].
Qed.

Lemma ordered_lookup i j k rj rk :
  Instrument.ordered i = true ->
  Instrument.data i !! j = Some rj -> Instrument.data i !! k = Some rk ->
  (j < k)%nat -> (TimeRecord.date rj < TimeRecord.date rk)%Z.
Proof.
  unfold Instrument.ordered. intros Hs Hj Hk Hjk.
  apply (sorted_by_lookup Z.ltb Z.lt (TimeRecord.date <$> Instrument.data i) j k);
    [apply Z.ltb_lt|done| | |done].
  - by rewrite list_lookup_fmap, Hj.
  - by rewrite list_lookup_fmap, Hk.
Qed.

Lemma ascending_lookup i j k rj rk :
  Instrument.ascending i = true ->
  Instrument.data i !! j = Some rj -> Instrument.data i !! k = Some rk ->
  (j < k)%nat -> (TimeRecord.date rj <= TimeRecord.date rk)%Z.
Proof.
  unfold Instrument.ascending. intros Hs Hj Hk Hjk.
  apply (sorted_by_lookup Z.leb Z.le (TimeRecord.date <$> Instrument.data i) j k);
    [apply Z.leb_le|done| | |done].
  - by rewrite list_lookup_fmap, Hj.
  - by rewrite list_lookup_fmap, Hk.
Qed.

(** Strictly increasing dates are in particular ascending. *)
Lemma ordered_ascending i :
  Instrument.ordered i = true -> Instrument.ascending i = true.
Proof.
  unfold Instrument.ordered, Instrument.ascending.
  induction (TimeRecord.date <$> Instrument.data i) as [|d ds IH]; [done|].
  destruct ds as [|d' ds]; [done|].
  cbn [Instrument.sorted_by]. intros [Hhead Hrest]%andb_prop.
  apply andb_true_intro. split; [|by apply IH].
  apply Z.leb_le. apply Z.ltb_lt in Hhead. lia.
Qed.

(** A filter that keeps exactly the positions below [n] is [take n]. *)
Lemma filter_positions_take {A : Type} (P : A -> Prop)
    `{forall x, Decision (P x)} (l : list A) (n : nat) :
  (forall j x, l !! j = Some x -> (P x <-> (j < n)%nat)) ->
  filter P l = take n l.
Proof.
  revert n. induction l as [|x l IH]; intros n Hpos.
  - by rewrite take_nil.
  - destruct n as [|n].
    + rewrite filter_cons_False.
      * rewrite (IH 0%nat); [done|]. intros j y Hj.
        specialize (Hpos (S j) y Hj). split; [|lia]. intros ?%Hpos. lia.
      * intros ?%(Hpos 0%nat x eq_refl). lia.
    + rewrite filter_cons_True.
      * simpl. f_equal. apply IH. intros j y Hj.
        specialize (Hpos (S j) y Hj). rewrite Hpos. lia.
      * apply (Hpos 0%nat x eq_refl). lia.
Qed.

(** In an ordered instrument the records up to the resolved position are
    the records that are not after [d]. *)
Lemma ordered_take_resolved i d k r :
  Instrument.ordered i = true ->
  Instrument.resolve d (Instrument.data i) = Some (k, r) ->
  take (S k) (Instrument.data i)
  = filter (fun r' => (TimeRecord.date r' <= d)%Z) (Instrument.data i).
Proof.
  intros Hord Hres. symmetry. apply filter_positions_take.
  intros j x Hj.
  pose proof (resolve_latest _ _ _ _ Hres) as Hlatest.
  apply resolve_Some in Hres as [Hk Hle].
  rewrite Forall_forall in Hlatest.
  assert (x ∈ Instrument.data i) as Hin by (apply list_elem_of_lookup; eauto).
  specialize (Hlatest x Hin). split.
  - intros Hx. specialize (Hlatest Hx).
    destruct (decide (j < S k)%nat) as [|Hge]; [done|].
    assert (k < j)%nat as Hkj by lia.
    pose proof (ordered_lookup _ _ _ _ _ Hord Hk Hj Hkj). lia.
  - intros Hjk. destruct (decide (j = k)) as [->|Hne].
    + congruence.
    + assert (j < k)%nat as Hlt by lia.
      pose proof (ordered_lookup _ _ _ _ _ Hord Hj Hk Hlt). lia.
Qed.

Lemma ascending_take_bounded i k rk r :
  Instrument.ascending i = true ->
  Instrument.data i !! k = Some rk ->
  r ∈ take (S k) (Instrument.data i) ->
  (TimeRecord.date r <= TimeRecord.date rk)%Z.
Proof.
  intros Hord Hk [j Hj]%list_elem_of_lookup.
  apply lookup_take_Some in Hj as [Hj Hjk].
  destruct (decide (j = k)) as [->|Hne].
  - assert (r = rk) as -> by congruence. lia.
  - assert (j < k)%nat as Hlt by lia.
    pose proof (ascending_lookup _ _ _ _ _ Hord Hj Hk Hlt). lia.
Qed.

End Ordered.

(** ** Running [Strategy.get_instrument] *)

Ltac unfold_M :=
  unfold call, call_raising;
  unfold bind, lift, load, ret, raise, deepcopy, setattr_data.

Section GetInstrument.

Variable mkt : markets.t.
Variable str_date : datetime_date -> string.
Implicit Types (h : gmap nat Instrument.t) (self : Strategy.t).

Local Abbreviation get_instrument := (Strategy.get_instrument mkt str_date).

Lemma get_instrument_unknown self ticker h e :
  markets.get_instrument mkt ticker = Raise e ->
  get_instrument self ticker h = (h, Raise e).
Proof.
  intros Hlook. unfold Strategy.get_instrument. unfold_M. by rewrite Hlook.
Qed.

Lemma get_instrument_no_object self ticker h shared :
  markets.get_instrument mkt ticker = Ok shared ->
  h !! shared = None ->
  get_instrument self ticker h = (h, Raise SystemError).
Proof.
  intros Hlook Hobj. unfold Strategy.get_instrument. unfold_M.
  by rewrite Hlook, Hobj.
Qed.

(** The ticker did not exist yet: the copy stays behind, unreferenced, and
    the [ValueError] reports the bounds of the instrument. *)
Lemma get_instrument_not_yet self ticker h shared i :
  markets.get_instrument mkt ticker = Ok shared ->
  h !! shared = Some i ->
  Instrument.existed_at_date i (Strategy.today self) = false ->
  get_instrument self ticker h
  = (<[fresh (dom h) := i]> h,
     Raise (ValueError
              (Strategy.didnt_exist str_date ticker (Strategy.today self)
                 (Instrument.get_first_date i)
                 (Instrument.get_last_date i)))).
Proof.
  intros Hlook Hobj Hex. unfold Strategy.get_instrument. unfold_M.
  rewrite Hlook, Hobj. simpl. rewrite !lookup_insert_eq, Hex. simpl.
  by rewrite !lookup_insert_eq.
Qed.

(** The ticker existed: the copy is cut after the resolved position. *)
Lemma get_instrument_resolved self ticker h shared i k r :
  markets.get_instrument mkt ticker = Ok shared ->
  h !! shared = Some i ->
  Instrument.resolve (Strategy.today self) (Instrument.data i) = Some (k, r) ->
  get_instrument self ticker h
  = (<[fresh (dom h) := truncated i k]> h, Ok (fresh (dom h))).
Proof.
  intros Hlook Hobj Hres. unfold Strategy.get_instrument. unfold_M.
  rewrite Hlook, Hobj. simpl.
  rewrite !lookup_insert_eq, (resolve_existed _ _ _ _ Hres). simpl.
  unfold Instrument.get_day_index_or_last_before.
  rewrite ?lookup_insert_eq, Hres. simpl.
  rewrite ?lookup_insert_eq, insert_insert_eq.
  unfold truncated, np_delete_from. by rewrite Nat.add_1_r.
Qed.

(** Whatever happens, the heap after the call is the heap before it, plus
    at most one new object. *)
Lemma get_instrument_heap self ticker h :
  (get_instrument self ticker h).1 = h \/
  exists v, (get_instrument self ticker h).1 = <[fresh (dom h) := v]> h.
Proof.
  destruct (markets.get_instrument mkt ticker) as [shared|e] eqn:Hlook.
  - destruct (h !! shared) as [i|] eqn:Hobj.
    + destruct (Instrument.existed_at_date i (Strategy.today self)) eqn:Hex.
      * destruct (existed_resolve _ _ Hex) as (k & r & Hres).
        rewrite (get_instrument_resolved _ _ _ _ _ _ _ Hlook Hobj Hres).
        right. by eexists.
      * rewrite (get_instrument_not_yet _ _ _ _ _ Hlook Hobj Hex).
        right. by eexists.
    + rewrite (get_instrument_no_object _ _ _ _ Hlook Hobj). by left.
  - rewrite (get_instrument_unknown _ _ _ _ Hlook). by left.
Qed.

Lemma fresh_lookup_None h : h !! fresh (dom h) = None.
Proof. apply not_elem_of_dom, is_fresh. Qed.

Lemma insert_fresh_preserves h v l i :
  h !! l = Some i -> <[fresh (dom h) := v]> h !! l = Some i.
Proof.
  intros Hl. rewrite lookup_insert_ne; [done|].
  intros <-. by rewrite fresh_lookup_None in Hl.
Qed.

(** No object of the heap is changed by the call. *)
Lemma get_instrument_preserves self ticker h l i :
  h !! l = Some i -> (get_instrument self ticker h).1 !! l = Some i.
Proof.
  intros Hl. destruct (get_instrument_heap self ticker h) as [->|[v ->]];
    [done|by apply insert_fresh_preserves].
Qed.

(** A reference it returns is to an object that was not in the heap. *)
Lemma get_instrument_returns_new self ticker h view :
  (get_instrument self ticker h).2 = Ok view -> h !! view = None.
Proof.
  destruct (markets.get_instrument mkt ticker) as [shared|e] eqn:Hlook.
  - destruct (h !! shared) as [i|] eqn:Hobj.
    + destruct (Instrument.existed_at_date i (Strategy.today self)) eqn:Hex.
      * destruct (existed_resolve _ _ Hex) as (k & r & Hres).
        rewrite (get_instrument_resolved _ _ _ _ _ _ _ Hlook Hobj Hres).
        intros [= <-]. apply fresh_lookup_None.
      * by rewrite (get_instrument_not_yet _ _ _ _ _ Hlook Hobj Hex).
    + by rewrite (get_instrument_no_object _ _ _ _ Hlook Hobj).
  - by rewrite (get_instrument_unknown _ _ _ _ Hlook).
Qed.

End GetInstrument.

(** ** Running [Strategy.get_instruments] *)

Section GetInstruments.

Variable mkt : markets.t.
Variable str_date : datetime_date -> string.
Implicit Types (h : gmap nat Instrument.t) (self : Strategy.t).

Lemma shared_instrument_Some h ticker i :
  shared_instrument mkt h ticker = Some i ->
  exists shared, markets.get_instrument mkt ticker = Ok shared /\
                 h !! shared = Some i.
Proof.
  unfold shared_instrument.
  destruct (markets.get_instrument mkt ticker) as [shared|e]; [|done].
  intros ?. by exists shared.
Qed.

(** The loop, started in a heap [h] that extends [h0], appends one view per
    listed ticker that exists today, in the order of the list, and keeps
    every object of [h]. *)
Lemma get_instruments_loop_views self tickers :
  forall h0 h acc,
    (forall l i, h0 !! l = Some i -> h !! l = Some i) ->
    Forall (fun t => is_Some (shared_instrument mkt h0 t)) tickers ->
    exists h' views,
      Strategy.get_instruments_loop mkt str_date self tickers acc h
      = (h', Ok (acc ++ views)) /\
      (forall l i, h !! l = Some i -> h' !! l = Some i) /\
      Forall2 (is_view_of mkt (Strategy.today self) h0 h')
        (filter (fun t => exists_at mkt (Strategy.today self) h0 t = true)
                tickers)
        views.
Proof.
  induction tickers as [|t rest IH]; intros h0 h acc Hext Hloaded.
  - exists h, []. simpl. rewrite app_nil_r. repeat split; [done|constructor].
  - apply Forall_cons in Hloaded as [[i Hi] Hrest].
    destruct (shared_instrument_Some _ _ _ Hi) as (shared & Hlook & Hobj0).
    pose proof (Hext _ _ Hobj0) as Hobj.
    cbn [Strategy.get_instruments_loop]. unfold bind, try_except_ValueError.
    destruct (Instrument.existed_at_date i (Strategy.today self)) eqn:Hex.
    + destruct (existed_resolve _ _ Hex) as (k & r & Hres).
      rewrite (get_instrument_resolved _ _ _ _ _ _ _ _ _ Hlook Hobj Hres).
      set (c := fresh (dom h)). set (h1 := <[c := truncated i k]> h).
      destruct (IH h0 h1 (acc ++ [c])) as (h' & views & Hrun & Hkeep & Hviews);
        [|done|].
      { intros l j Hl. by apply insert_fresh_preserves, Hext. }
      exists h', (c :: views). rewrite Hrun, <- app_assoc. simpl.
      split; [done|]. split.
      { intros l j Hl. by apply Hkeep, insert_fresh_preserves. }
      rewrite filter_cons_True by (unfold exists_at; by rewrite Hi).
      constructor; [|done].
      exists i, (truncated i k). split; [done|]. split.
      * unfold point_in_time, Instrument.get_day_index_or_last_before.
        by rewrite Hres.
      * apply Hkeep. unfold h1. by rewrite lookup_insert_eq.
    + rewrite (get_instrument_not_yet _ _ _ _ _ _ _ Hlook Hobj Hex).
      set (h1 := <[fresh (dom h) := i]> h).
      destruct (IH h0 h1 acc) as (h' & views & Hrun & Hkeep & Hviews);
        [|done|].
      { intros l j Hl. by apply insert_fresh_preserves, Hext. }
      exists h', views. rewrite Hrun.
      split; [done|]. split.
      { intros l j Hl. by apply Hkeep, insert_fresh_preserves. }
      rewrite filter_cons_False; [done|].
      unfold exists_at. rewrite Hi, Hex. done.
Qed.

Lemma get_instruments_views self h :
  listed_tickers_loaded mkt h ->
  exists h' views,
    Strategy.get_instruments mkt str_date self h = (h', Ok views) /\
    (forall l i, h !! l = Some i -> h' !! l = Some i) /\
    Forall2 (is_view_of mkt (Strategy.today self) h h')
      (filter (fun t => exists_at mkt (Strategy.today self) h t = true)
              (markets.get_tickers mkt))
      views.
Proof.
  intros Hloaded. unfold Strategy.get_instruments.
  destruct (get_instruments_loop_views self (markets.get_tickers mkt) h h [])
    as (h' & views & Hrun & Hkeep & Hviews); [done..|].
  exists h', views. by rewrite Hrun.
Qed.

Lemma alphabetical_filter (P : string -> Prop) `{forall t, Decision (P t)}
    (tickers : list string) :
  alphabetical tickers -> alphabetical (filter P tickers).
Proof.
  unfold alphabetical. induction 1 as [|t tickers Hs IH Hall].
  - constructor.
  - destruct (decide (P t)).
    + rewrite filter_cons_True by done. constructor; [done|].
      rewrite Forall_forall in *. intros x [_ Hx]%list_elem_of_filter.
      by apply Hall.
    + by rewrite filter_cons_False.
Qed.

End GetInstruments.

(** The same loop over any store: what it keeps and what it makes. *)

Section GetInstrumentsAnyStore.

Variable mkt : markets.t.
Variable str_date : Z -> string.
Implicit Types (h : gmap nat Instrument.t) (self : Strategy.t).

Lemma get_instruments_loop_preserves self tickers :
  forall h acc l i,
    h !! l = Some i ->
    (Strategy.get_instruments_loop mkt str_date self tickers acc h).1 !! l
    = Some i.
Proof.
  induction tickers as [|t rest IH]; intros h acc l i Hl; [done|].
  cbn [Strategy.get_instruments_loop]. unfold bind, try_except_ValueError.
  pose proof (get_instrument_preserves mkt str_date self t h _ _ Hl) as Hkeep.
  destruct (Strategy.get_instrument mkt str_date self t h) as [h1 [v|e]];
    cbn [fst] in Hkeep.
  - by apply IH.
  - destruct e; try done. by apply IH.
Qed.

(** A reference that [get_instrument] returns is to an object of the heap
    it leaves. *)
Lemma get_instrument_returns_object self ticker h view :
  (Strategy.get_instrument mkt str_date self ticker h).2 = Ok view ->
  is_Some ((Strategy.get_instrument mkt str_date self ticker h).1 !! view).
Proof.
  destruct (markets.get_instrument mkt ticker) as [shared|e] eqn:Hlook.
  - destruct (h !! shared) as [i|] eqn:Hobj.
    + destruct (Instrument.existed_at_date i (Strategy.today self)) eqn:Hex.
      * destruct (existed_resolve _ _ Hex) as (k & r & Hres).
        rewrite (get_instrument_resolved _ _ _ _ _ _ _ _ _ Hlook Hobj Hres).
        intros [= <-]. cbn [fst]. rewrite lookup_insert_eq. by eexists.
      * by rewrite (get_instrument_not_yet _ _ _ _ _ _ _ Hlook Hobj Hex).
    + by rewrite (get_instrument_no_object _ _ _ _ _ _ Hlook Hobj).
  - by rewrite (get_instrument_unknown _ _ _ _ _ _ Hlook).
Qed.

Lemma get_instruments_loop_new_views self tickers :
  forall h acc h' out,
    Strategy.get_instruments_loop mkt str_date self tickers acc h
    = (h', Ok out) ->
    exists views,
      out = acc ++ views /\
      (length views <= length tickers)%nat /\
      NoDup views /\
      Forall (fun v => h !! v = None /\ is_Some (h' !! v)) views.
Proof.
  induction tickers as [|t rest IH]; intros h acc h' out.
  - intros [= <- <-]. exists []. rewrite app_nil_r.
    repeat split; [done|constructor|constructor].
  - cbn [Strategy.get_instruments_loop]. unfold bind, try_except_ValueError.
    pose proof (get_instrument_returns_new mkt str_date self t h) as Hnew.
    pose proof (get_instrument_returns_object self t h) as Hobj.
    pose proof (get_instrument_preserves mkt str_date self t h) as Hkeep.
    destruct (Strategy.get_instrument mkt str_date self t h) as [h1 [v|e]];
      cbn [fst snd] in *.
    + intros Hrun. specialize (Hnew v eq_refl). specialize (Hobj v eq_refl).
      pose proof (get_instruments_loop_preserves self rest h1 (acc ++ [v]) v)
        as Hlater.
      rewrite Hrun in Hlater. cbn [fst] in Hlater.
      apply IH in Hrun as (views & -> & Hlen & Hdup & Hall).
      exists (v :: views). rewrite <- app_assoc. split; [done|].
      split; [simpl; lia|]. rewrite Forall_forall in Hall. split.
      * apply NoDup_cons. split; [|done].
        intros Hin. destruct (Hall v Hin) as [Hnone _].
        destruct Hobj as [x Hx]. congruence.
      * constructor.
        -- split; [done|]. destruct Hobj as [x Hx]. exists x.
           by apply Hlater.
        -- apply Forall_forall. intros w Hw. destruct (Hall w Hw) as [Hn Hs].
           split; [|done].
           destruct (h !! w) as [x|] eqn:Hhw; [|done].
           apply Hkeep in Hhw. congruence.
    + destruct e; try discriminate.
      intros Hrun. apply IH in Hrun as (views & -> & Hlen & Hdup & Hall).
      exists views. split; [done|]. split; [simpl; lia|]. split; [done|].
      rewrite Forall_forall in *. intros w Hw. destruct (Hall w Hw) as [Hn Hs].
      split; [|done].
      destruct (h !! w) as [x|] eqn:Hhw; [|done].
      apply Hkeep in Hhw. congruence.
Qed.

Lemma get_instruments_loop_app self pre post :
  forall h acc,
    Strategy.get_instruments_loop mkt str_date self (pre ++ post) acc h
    = match Strategy.get_instruments_loop mkt str_date self pre acc h with
      | (h1, Ok acc1) =>
          Strategy.get_instruments_loop mkt str_date self post acc1 h1
      | (h1, Raise e) => (h1, Raise e)
      end.
Proof.
  induction pre as [|t pre IH]; intros h acc; [done|].
  cbn [app Strategy.get_instruments_loop]. unfold bind, try_except_ValueError.
  destruct (Strategy.get_instrument mkt str_date self t h) as [h1 [v|e]].
  - apply IH.
  - destruct e; first [apply IH|reflexivity].
Qed.

End GetInstrumentsAnyStore.

(** ** [Order.fill] *)

Section Fill.

Variable calculate_brokerage : Order.t -> float.
Implicit Types (o : Order.t) (p fq : float).

(** [fill] never reads [filled]. *)
Lemma fill_ignores_filled o p flag :
  Order.fill calculate_brokerage (Order.set_filled o flag) p
  = Order.fill calculate_brokerage o p.
Proof. by destruct o. Qed.

Lemma fill_fields o p fq :
  int_to_float (Order.quantity o) = Ok fq ->
  Order.fill calculate_brokerage o p
  = (Order.mk (Order.ticker o) (Order.action o) (Order.quantity o)
       (Order.price o) true (Some p) (Some (fq * p)%float)
       (Some (calculate_brokerage (Order.as_seen_by_broker o p)))
       (Some (fq * p + calculate_brokerage (Order.as_seen_by_broker o p))%float),
     Ok tt).
Proof.
  intros Hq. unfold Order.fill, mul_int_float. simpl. by rewrite Hq.
Qed.

(** Beyond the range of binary64 the multiplication raises, after the flag
    was set: the order is left filled without a cost. *)
Lemma fill_overflow o p e :
  int_to_float (Order.quantity o) = Raise e ->
  (Order.fill calculate_brokerage o p).2 = Raise e /\
  Order.filled (Order.fill calculate_brokerage o p).1 = true /\
  Order.cost (Order.fill calculate_brokerage o p).1 = Order.cost o.
Proof.
  intros Hq. unfold Order.fill, mul_int_float. simpl. by rewrite Hq.
Qed.

End Fill.

(** ** The claims about [Order] *)

(** C2 (as stated, refuted): a second [fill] of a filled order raises. Here
    the order of the worked case, already filled at 5.10, is filled again at
    5.20: the call returns normally and the price is overwritten. *)
Lemma fill_twice_returns_normally :
  Order.filled Scenario.bought = true /\
  (Order.fill Scenario.flat_fee Scenario.bought 5.2).2 = Ok tt /\
  (forall e, (Order.fill Scenario.flat_fee Scenario.bought 5.2).2 <> Raise e) /\
  Order.filled_price (Order.fill Scenario.flat_fee Scenario.bought 5.2).1
  = Some 5.2%float.
Proof. vm_compute. repeat split; discriminate. Qed.

(** C2 (amended): [fill] has no guard on [filled]. On an order that is
    already filled it ends as on the same order unfilled: for a quantity in
    the range of binary64 it returns normally, the order stays filled, and
    [filled_price], [brokerage], [cost] and [total] are overwritten with the
    values of the new fill. *)
Theorem fill_again_overwrites calculate_brokerage (o : Order.t) (p fq : float) :
  Order.filled o = true ->
  int_to_float (Order.quantity o) = Ok fq ->
  Order.fill calculate_brokerage o p
  = Order.fill calculate_brokerage (Order.set_filled o false) p /\
  (Order.fill calculate_brokerage o p).2 = Ok tt /\
  Order.filled (Order.fill calculate_brokerage o p).1 = true /\
  Order.filled_price (Order.fill calculate_brokerage o p).1 = Some p /\
  Order.cost (Order.fill calculate_brokerage o p).1 = Some (fq * p)%float /\
  Order.brokerage (Order.fill calculate_brokerage o p).1
  = Some (calculate_brokerage (Order.as_seen_by_broker o p)) /\
  Order.total (Order.fill calculate_brokerage o p).1
  = Some (fq * p + calculate_brokerage (Order.as_seen_by_broker o p))%float.
Proof.
  intros _ Hq. split.
  - by rewrite fill_ignores_filled.
  - by rewrite (fill_fields _ _ _ _ Hq).
Qed.

Lemma fill_again_overwrites_witness :
  (Order.fill Scenario.flat_fee Scenario.bought 5.2).2 = Ok tt /\
  Order.filled_price (Order.fill Scenario.flat_fee Scenario.bought 5.2).1
  = Some 5.2%float.
Proof.
  pose proof (fill_again_overwrites Scenario.flat_fee Scenario.bought
                5.2%float 100%float eq_refl eq_refl) as H.
  split; [apply H|apply H].
Defined.

(** C3 (as stated, refuted): 100 shares filled at 5.10 cost 510.0. The
    binary64 product of 100 and 5.10 is 509.99999999999994. *)
Lemma fill_100_at_5_10_cost :
  Order.cost (Order.fill Scenario.flat_fee Scenario.buy_100 5.1).1
  = Some 509.99999999999994%float /\
  Order.cost (Order.fill Scenario.flat_fee Scenario.buy_100 5.1).1
  <> Some 510%float.
Proof.
  split; [reflexivity|].
  intros H.
  apply (f_equal (fun c => match c with
                           | Some x => PrimFloat.eqb x 510
                           | None => false
                           end)) in H.
  vm_compute in H. discriminate.
Qed.

(** C3 (amended): for every unfilled order with a quantity [q] in the range
    of binary64, after [fill(p)] the order has [filled = true],
    [filled_price = p], [cost = float(q) * p] and [total = cost + brokerage],
    all in binary64 arithmetic, where [brokerage] is what
    [broker.calculate_brokerage] returns for this order; a buy of 100 shares
    filled at 5.10 with brokerage 2.50 has cost 509.99999999999994 and total
    512.5. *)
Theorem fill_sets_cost_and_total calculate_brokerage (o : Order.t)
    (p fq : float) :
  Order.filled o = false ->
  int_to_float (Order.quantity o) = Ok fq ->
  let fee := calculate_brokerage (Order.as_seen_by_broker o p) in
  let o' := (Order.fill calculate_brokerage o p).1 in
  (Order.fill calculate_brokerage o p).2 = Ok tt /\
  Order.filled o' = true /\
  Order.filled_price o' = Some p /\
  Order.brokerage o' = Some fee /\
  Order.cost o' = Some (fq * p)%float /\
  Order.total o' = Some (fq * p + fee)%float /\
  (Order.quantity o = 100%Z -> p = 5.1%float -> fee = 2.5%float ->
   Order.cost o' = Some 509.99999999999994%float /\
   Order.total o' = Some 512.5%float).
Proof.
  intros _ Hq fee o'. subst fee o'. rewrite (fill_fields _ _ _ _ Hq). simpl.
  do 6 (split; [reflexivity|]).
  intros Hquantity -> Hfee. rewrite Hquantity in Hq. vm_compute in Hq.
  injection Hq as <-. rewrite Hfee. split; reflexivity.
Qed.

Lemma fill_sets_cost_and_total_witness :
  (Order.fill Scenario.flat_fee Scenario.buy_100 5.1).2 = Ok tt /\
  Order.total (Order.fill Scenario.flat_fee Scenario.buy_100 5.1).1
  = Some 512.5%float.
Proof.
  pose proof (fill_sets_cost_and_total Scenario.flat_fee Scenario.buy_100
                5.1%float 100%float eq_refl eq_refl) as H.
  simpl in H. split; [apply H|].
  destruct H as (_ & _ & _ & _ & _ & _ & H). by apply H.
Defined.

(** ** The claims about [Share] *)

(** C7: when the instrument has data at or before [d], [Share.get_value(d)]
    returns the quantity multiplied by the close of the resolved record if
    that record has one, else by its value field; with a resolved price of
    25.0 it returns 250.0 for quantity 10 and -125.0 for quantity -5. *)
Theorem get_value_quantity_times_price (mkt : markets.t) (self : Share.t)
    (d : Z) (h : gmap nat Instrument.t) (shared : nat) (i : Instrument.t) :
  markets.get_instrument mkt (Share.ticker self) = Ok shared ->
  h !! shared = Some i ->
  Instrument.existed_at_date i d = true ->
  exists day_data,
    Instrument.get_day_or_last_before i d = Ok day_data /\
    (TimeRecord.date day_data <= d)%Z /\
    (forall c, TimeRecord.close day_data = Some c ->
       Share.get_value mkt self d h
       = (h, mul_int_float (Share.quantity self) c)) /\
    (forall v, TimeRecord.close day_data = None ->
       TimeRecord.value day_data = Some v ->
       Share.get_value mkt self d h
       = (h, mul_int_float (Share.quantity self) v)) /\
    (Share.current_price day_data = Ok 25%float ->
       (Share.quantity self = 10%Z ->
        Share.get_value mkt self d h = (h, Ok 250%float)) /\
       (Share.quantity self = (-5)%Z ->
        Share.get_value mkt self d h = (h, Ok (-125)%float))).
Proof.
  intros Hlook Hobj Hex.
  destruct (existed_resolve _ _ Hex) as (k & day_data & Hres).
  destruct (resolve_Some _ _ _ _ Hres) as [_ Hle].
  assert (forall x, Share.current_price day_data = Ok x ->
            Share.get_value mkt self d h
            = (h, mul_int_float (Share.quantity self) x)) as Hrun.
  { intros x Hx. unfold Share.get_value. unfold_M.
    rewrite Hlook, Hobj. unfold Instrument.get_day_or_last_before.
    by rewrite Hres, Hx. }
  exists day_data. split.
  { unfold Instrument.get_day_or_last_before. by rewrite Hres. }
  split; [done|]. split; [|split].
  - intros c Hc. apply Hrun.
    unfold Share.current_price, TimeRecord.getitem_close. by rewrite Hc.
  - intros v Hc Hv. apply Hrun.
    unfold Share.current_price, TimeRecord.getitem_close,
      TimeRecord.getitem_value. by rewrite Hc, Hv.
  - intros Hprice. split; intros Hq; rewrite (Hrun _ Hprice), Hq; reflexivity.
Qed.

Lemma get_value_quantity_times_price_witness :
  Share.get_value Scenario.mkt (Share.mk "ZETA" 10 1%float) 737431
    Scenario.store
  = (Scenario.store, Ok 250%float).
Proof.
  destruct (get_value_quantity_times_price Scenario.mkt
              (Share.mk "ZETA" 10 1%float) 737431 Scenario.store 1%nat
              Scenario.zeta eq_refl eq_refl eq_refl)
    as (day_data & Hday & _ & _ & _ & Hcase).
  injection Hday as <-. by apply Hcase.
Defined.

(** ** The claims about [Strategy] *)

(** C9: the base [execute] sets [today], [portfolio] and [money] to its
    arguments, leaves [from_date] and [to_date] as they were, and returns
    [None], no order. *)
Theorem execute_updates_three_fields (self : Strategy.t) (today : Z)
    (portfolio : gmap string Share.t) (money : float) :
  Strategy.today (Strategy.execute self today portfolio money).1 = today /\
  Strategy.portfolio (Strategy.execute self today portfolio money).1
  = portfolio /\
  Strategy.money (Strategy.execute self today portfolio money).1 = money /\
  Strategy.from_date (Strategy.execute self today portfolio money).1
  = Strategy.from_date self /\
  Strategy.to_date (Strategy.execute self today portfolio money).1
  = Strategy.to_date self /\
  (Strategy.execute self today portfolio money).2 = None.
Proof.
  unfold Strategy.execute. cbn [fst snd].
  repeat split.
Qed.

(** C1: for a ticker whose instrument, its records in ascending order of
    date, exists at [today], the view returned by [get_instrument] holds
    exactly the records up to and including the position that
    [get_day_index_or_last_before(today)] resolves to; none of them is dated
    after the resolved trading day, which is not after [today]. When the
    dates are strictly increasing, as the data model has them, the view holds
    exactly the records dated [today] or before. *)
Theorem get_instrument_point_in_time (mkt : markets.t)
    (str_date : Z -> string) (self : Strategy.t) (ticker : string)
    (h : gmap nat Instrument.t) (shared : nat) (i : Instrument.t) :
  markets.get_instrument mkt ticker = Ok shared ->
  h !! shared = Some i ->
  Instrument.ascending i = true ->
  Instrument.existed_at_date i (Strategy.today self) = true ->
  exists row_index resolved view,
    Instrument.get_day_index_or_last_before i (Strategy.today self)
    = Ok row_index /\
    Instrument.data i !! row_index = Some resolved /\
    (TimeRecord.date resolved <= Strategy.today self)%Z /\
    (Strategy.get_instrument mkt str_date self ticker h).2 = Ok view /\
    (Strategy.get_instrument mkt str_date self ticker h).1 !! view
    = Some (Instrument.mk (Instrument.ticker i)
              (take (S row_index) (Instrument.data i))) /\
    (forall r, r ∈ take (S row_index) (Instrument.data i) ->
               (TimeRecord.date r <= TimeRecord.date resolved)%Z) /\
    (Instrument.ordered i = true ->
     take (S row_index) (Instrument.data i)
     = filter (fun r => (TimeRecord.date r <= Strategy.today self)%Z)
         (Instrument.data i)).
Proof.
  intros Hlook Hobj Hasc Hex.
  destruct (existed_resolve _ _ Hex) as (k & r & Hres).
  destruct (resolve_Some _ _ _ _ Hres) as [Hk Hle].
  exists k, r, (fresh (dom h)).
  rewrite (get_instrument_resolved _ _ _ _ _ _ _ _ _ Hlook Hobj Hres). simpl.
  split. { unfold Instrument.get_day_index_or_last_before. by rewrite Hres. }
  do 3 (split; [done|]). split; [|split].
  - by rewrite lookup_insert_eq.
  - intros r' Hr'. by eapply ascending_take_bounded.
  - intros Hord. by eapply ordered_take_resolved.
Qed.

Lemma get_instrument_point_in_time_witness :
  exists view,
    (Strategy.get_instrument Scenario.mkt Scenario.str_date
       (Scenario.strategy 737429) "ACME" Scenario.store).2 = Ok view /\
    (Strategy.get_instrument Scenario.mkt Scenario.str_date
       (Scenario.strategy 737429) "ACME" Scenario.store).1 !! view
    = Some (Instrument.mk "ACME"
              [Scenario.row 737426 (Some 10%float) None]).
Proof.
  destruct (get_instrument_point_in_time Scenario.mkt Scenario.str_date
              (Scenario.strategy 737429) "ACME" Scenario.store 0%nat
              Scenario.acme eq_refl eq_refl eq_refl eq_refl)
    as (row_index & resolved & view & Hindex & _ & _ & Hret & Hview & _).
  injection Hindex as <-. exists view. split; [exact Hret|exact Hview].
Defined.

(** C4: for a ticker the store knows, [get_instrument] fails with the
    [ValueError] that reports a ticker not existing yet if and only if
    [existed_at_date(self.today)] is false for its instrument; the message
    carries the first and the last date of the instrument. *)
Theorem get_instrument_fails_iff_not_existed (mkt : markets.t)
    (str_date : Z -> string) (self : Strategy.t) (ticker : string)
    (h : gmap nat Instrument.t) (shared : nat) (i : Instrument.t) :
  markets.get_instrument mkt ticker = Ok shared ->
  h !! shared = Some i ->
  ((exists e, (Strategy.get_instrument mkt str_date self ticker h).2 = Raise e)
   <-> Instrument.existed_at_date i (Strategy.today self) = false) /\
  (Instrument.existed_at_date i (Strategy.today self) = false ->
   (Strategy.get_instrument mkt str_date self ticker h).2
   = Raise (ValueError
              ("'" +:+ ticker +:+ "' didn't exist at " +:+
               str_date (Strategy.today self) +:+
               ", first date: " +:+
               Strategy.str_bound str_date (Instrument.get_first_date i) +:+
               ", last date: " +:+
               Strategy.str_bound str_date (Instrument.get_last_date i)))).
Proof.
  intros Hlook Hobj.
  destruct (Instrument.existed_at_date i (Strategy.today self)) eqn:Hex.
  - destruct (existed_resolve _ _ Hex) as (k & r & Hres).
    rewrite (get_instrument_resolved _ _ _ _ _ _ _ _ _ Hlook Hobj Hres). simpl.
    split; [|done]. split; [intros [e ?]|]; done.
  - rewrite (get_instrument_not_yet _ _ _ _ _ _ _ Hlook Hobj Hex). simpl.
    split; [|done]. split; [done|]. intros _. by eexists.
Qed.

Lemma get_instrument_fails_iff_not_existed_witness :
  (Strategy.get_instrument Scenario.mkt Scenario.str_date
     (Scenario.strategy 737425) "ACME" Scenario.store).2
  = Raise (ValueError
      "'ACME' didn't exist at 737425, first date: 737426, last date: 737430").
Proof.
  destruct (get_instrument_fails_iff_not_existed Scenario.mkt Scenario.str_date
              (Scenario.strategy 737425) "ACME" Scenario.store 0%nat
              Scenario.acme eq_refl eq_refl) as [_ Hmsg].
  exact (Hmsg eq_refl).
Defined.

(** C8: [get_instrument] changes no object that was in the heap, the store's
    instruments among them, whether it returns or raises; the reference it
    returns is to a new object, the only one it truncates. *)
Theorem get_instrument_leaves_store_unchanged (mkt : markets.t)
    (str_date : Z -> string) (self : Strategy.t) (ticker : string)
    (h : gmap nat Instrument.t) (l : nat) (i : Instrument.t) :
  h !! l = Some i ->
  (Strategy.get_instrument mkt str_date self ticker h).1 !! l = Some i /\
  (forall view,
     (Strategy.get_instrument mkt str_date self ticker h).2 = Ok view ->
     view <> l /\ h !! view = None).
Proof.
  intros Hl. split.
  - by apply get_instrument_preserves.
  - intros view Hview%get_instrument_returns_new. split; [|done].
    intros ->. congruence.
Qed.

Lemma get_instrument_leaves_store_unchanged_witness :
  (Strategy.get_instrument Scenario.mkt Scenario.str_date
     (Scenario.strategy 737429) "ACME" Scenario.store).1 !! 0%nat
  = Some Scenario.acme.
Proof.
  exact (proj1 (get_instrument_leaves_store_unchanged Scenario.mkt
                  Scenario.str_date (Scenario.strategy 737429) "ACME"
                  Scenario.store 0%nat Scenario.acme eq_refl)).
Defined.

(** C10: the views that [get_instruments] returns follow the order in which
    [markets.get_tickers()] lists the tickers, restricted to the tickers that
    exist at [today]; nothing is sorted on the way, so when every listed
    ticker exists the views are in the very order of the list, alphabetical
    or not. *)
Theorem get_instruments_in_listing_order (mkt : markets.t)
    (str_date : Z -> string) (self : Strategy.t) (h : gmap nat Instrument.t) :
  listed_tickers_loaded mkt h ->
  exists h' views,
    Strategy.get_instruments mkt str_date self h = (h', Ok views) /\
    Forall2 (is_view_of mkt (Strategy.today self) h h')
      (filter (fun t => exists_at mkt (Strategy.today self) h t = true)
              (markets.get_tickers mkt))
      views /\
    (Forall (fun t => exists_at mkt (Strategy.today self) h t = true)
            (markets.get_tickers mkt) ->
     Forall2 (is_view_of mkt (Strategy.today self) h h')
       (markets.get_tickers mkt) views).
Proof.
  intros Hloaded.
  destruct (get_instruments_views mkt str_date self h Hloaded)
    as (h' & views & Hrun & _ & Hviews).
  exists h', views. split; [done|]. split; [done|].
  intros Hall. revert Hviews.
  assert (filter (fun t => exists_at mkt (Strategy.today self) h t = true)
                 (markets.get_tickers mkt) = markets.get_tickers mkt) as ->;
    [|done].
  induction Hall as [|t tickers Ht _ IH]; [done|].
  rewrite filter_cons_True by done. by rewrite IH.
Qed.

Lemma get_instruments_in_listing_order_witness :
  exists h' zeta_view acme_view,
    Strategy.get_instruments Scenario.mkt_reversed Scenario.str_date
      (Scenario.strategy 737431) Scenario.store
    = (h', Ok [zeta_view; acme_view]) /\
    is_view_of Scenario.mkt_reversed 737431 Scenario.store h' "ZETA" zeta_view /\
    is_view_of Scenario.mkt_reversed 737431 Scenario.store h' "ACME" acme_view.
Proof.
  destruct (get_instruments_in_listing_order Scenario.mkt_reversed
              Scenario.str_date (Scenario.strategy 737431) Scenario.store)
    as (h' & views & Hrun & _ & Hall).
  { repeat (constructor; [by eexists|]). constructor. }
  assert (Forall2 (is_view_of Scenario.mkt_reversed 737431 Scenario.store h')
            ["ZETA"; "ACME"] views) as Hviews.
  { apply Hall. repeat (constructor; [reflexivity|]). constructor. }
  destruct views as [|zeta_view [|acme_view [|more views]]];
    try (exfalso; clear -Hviews;
         repeat match goal with
                | H : Forall2 _ _ _ |- _ => inversion H; clear H; subst
                end; fail).
  exists h', zeta_view, acme_view. split; [exact Hrun|].
  inversion Hviews as [|? ? ? ? Hz Hrest]; subst.
  inversion Hrest as [|? ? ? ? Ha _]; subst.
  split; [exact Hz|exact Ha].
Defined.

(** C5: with the store's tickers listed alphabetically, [get_instruments]
    returns, without failing, one view for each listed ticker that exists at
    [today] and none for the others, in the order of the listing restricted
    to those tickers, which is alphabetical; each view is a new object that
    holds the records of the store's instrument up to and including the
    position that [today] resolves to. *)
Theorem get_instruments_existing_alphabetical (mkt : markets.t)
    (str_date : Z -> string) (self : Strategy.t) (h : gmap nat Instrument.t) :
  listed_tickers_loaded mkt h ->
  alphabetical (markets.get_tickers mkt) ->
  exists h' views,
    Strategy.get_instruments mkt str_date self h = (h', Ok views) /\
    alphabetical
      (filter (fun t => exists_at mkt (Strategy.today self) h t = true)
              (markets.get_tickers mkt)) /\
    Forall2
      (fun t view =>
         exists shared i row_index,
           markets.get_instrument mkt t = Ok shared /\
           h !! shared = Some i /\
           Instrument.existed_at_date i (Strategy.today self) = true /\
           Instrument.get_day_index_or_last_before i (Strategy.today self)
           = Ok row_index /\
           h !! view = None /\
           h' !! view
           = Some (Instrument.mk (Instrument.ticker i)
                     (take (S row_index) (Instrument.data i))))
      (filter (fun t => exists_at mkt (Strategy.today self) h t = true)
              (markets.get_tickers mkt))
      views.
Proof.
  intros Hloaded Hsorted.
  destruct (get_instruments_views mkt str_date self h Hloaded)
    as (h' & views & Hrun & _ & Hviews).
  exists h', views. split; [done|]. split; [by apply alphabetical_filter|].
  pose proof (get_instruments_loop_new_views mkt str_date self _ _ _ _ _ Hrun)
    as (views' & Hviews' & _ & _ & Hnew).
  cbn [app] in Hviews'. subst views'. rewrite Forall_forall in Hnew.
  apply Forall2_same_length_lookup. split.
  { by eapply Forall2_length. }
  intros n t view Ht Hview.
  pose proof (Forall2_lookup_lr _ _ _ _ _ _ Hviews Ht Hview)
    as (i & v & Hi & Hpoint & Hv).
  destruct (shared_instrument_Some _ _ _ _ Hi) as (shared & Hlook & Hobj).
  unfold point_in_time in Hpoint.
  destruct (Instrument.get_day_index_or_last_before i (Strategy.today self))
    as [row_index|e] eqn:Hindex; [|discriminate].
  injection Hpoint as <-.
  exists shared, i, row_index. do 2 (split; [done|]). split.
  - unfold Instrument.get_day_index_or_last_before in Hindex.
    destruct (Instrument.resolve (Strategy.today self) (Instrument.data i))
      as [[k r]|] eqn:Hres; [|discriminate].
    by eapply resolve_existed.
  - split; [done|]. split; [|done].
    apply Hnew, list_elem_of_lookup. eauto.
Qed.

Lemma get_instruments_existing_alphabetical_witness :
  exists h' view,
    Strategy.get_instruments Scenario.mkt Scenario.str_date
      (Scenario.strategy 737429) Scenario.store
    = (h', Ok [view]) /\
    Scenario.store !! view = None /\
    h' !! view
    = Some (Instrument.mk "ACME" [Scenario.row 737426 (Some 10%float) None]).
Proof.
  destruct (get_instruments_existing_alphabetical Scenario.mkt
              Scenario.str_date (Scenario.strategy 737429) Scenario.store)
    as (h' & views & Hrun & _ & Hviews).
  { repeat (constructor; [by eexists|]). constructor. }
  { repeat constructor. }
  assert (filter
            (fun t => exists_at Scenario.mkt
                        (Strategy.today (Scenario.strategy 737429))
                        Scenario.store t = true)
            (markets.get_tickers Scenario.mkt) = ["ACME"]) as Hexisting
    by reflexivity.
  rewrite Hexisting in Hviews.
  inversion Hviews as [|t view ts vs Hview Hrest]; subst.
  inversion Hrest; subst.
  destruct Hview
    as (shared & i & row_index & Hlook & Hobj & _ & Hindex & Hnew & Hv).
  injection Hlook as <-. injection Hobj as <-. injection Hindex as <-.
  exists h', view. split; [exact Hrun|]. split; [exact Hnew|exact Hv].
Defined.

(** In the worked market on 2020-01-05 only "ACME" exists: one view comes
    back, cut after 2020-01-02, and "ZETA" raises nothing. *)
Example get_instruments_2020_01_05 :
  (Strategy.get_instruments Scenario.mkt Scenario.str_date
     (Scenario.strategy 737429) Scenario.store).2 = Ok [2%nat] /\
  (Strategy.get_instruments Scenario.mkt Scenario.str_date
     (Scenario.strategy 737429) Scenario.store).1 !! 2%nat
  = Some (Instrument.mk "ACME" [Scenario.row 737426 (Some 10%float) None]).
Proof. split; reflexivity. Qed.

(** C6 (the code at a failing input): between 2020-01-01 and 2020-01-07 the
    calendar of the worked market has two trading days; the generator
    [Strategy.trading_days] yields one item, the whole sequence, not one item
    per date. *)
Theorem trading_days_yields_one_item :
  markets.trading_days Scenario.mkt 737425 737431 = [737426; 737430]%Z /\
  Strategy.trading_days Scenario.mkt (Scenario.strategy 737431) 737425 737431
  = [[737426; 737430]%Z] /\
  length (Strategy.trading_days Scenario.mkt (Scenario.strategy 737431)
            737425 737431) = 1%nat.
Proof. repeat split. Qed.

(** Whatever the calendar, the generator yields exactly once. *)
Lemma trading_days_single_yield (mkt : markets.t) (self : Strategy.t)
    (from_date to_date : Z) :
  Strategy.trading_days mkt self from_date to_date
  = [markets.trading_days mkt from_date to_date].
Proof. reflexivity. Qed.

(** * Further properties of the code *)

(** ** [Order]: what [fill] touches, and the states of an order *)

(** X1: [fill] never changes the ticker, the action, the quantity or the
    limit price of the order, whether it returns or raises. *)
Theorem fill_keeps_the_order (calculate_brokerage : Order.t -> float)
    (o : Order.t) (p : float) :
  Order.ticker (Order.fill calculate_brokerage o p).1 = Order.ticker o /\
  Order.action (Order.fill calculate_brokerage o p).1 = Order.action o /\
  Order.quantity (Order.fill calculate_brokerage o p).1 = Order.quantity o /\
  Order.price (Order.fill calculate_brokerage o p).1 = Order.price o.
Proof.
  unfold Order.fill.
  destruct (mul_int_float _ p) as [c|e]; repeat split.
Qed.

(** X2: [fill] looks neither at the action nor at the limit price: two new
    orders for the same quantity, whatever their action, limit, ticker and
    fee schedule, filled at the same price end the same way with the same
    cost; a sell costs what a buy costs, and a price beyond the limit is
    taken. *)
Theorem fill_ignores_action_and_limit
    (calculate_brokerage calculate_brokerage' : Order.t -> float)
    (ticker ticker' action action' : string)
    (limit limit' : option float) (quantity : Z) (p : float) :
  (Order.fill calculate_brokerage
     (Order.__init__ ticker action quantity limit) p).2
  = (Order.fill calculate_brokerage'
       (Order.__init__ ticker' action' quantity limit') p).2 /\
  Order.cost (Order.fill calculate_brokerage
                (Order.__init__ ticker action quantity limit) p).1
  = Order.cost (Order.fill calculate_brokerage'
                  (Order.__init__ ticker' action' quantity limit') p).1 /\
  Order.filled_price (Order.fill calculate_brokerage
                        (Order.__init__ ticker action quantity limit) p).1
  = Some p.
Proof.
  unfold Order.fill, Order.__init__. cbn.
  destruct (mul_int_float quantity p) as [c|e]; repeat split.
Qed.

Lemma fill_returned_settled (calculate_brokerage : Order.t -> float)
    (o : Order.t) (p : float) :
  (Order.fill calculate_brokerage o p).2 = Ok tt ->
  Order.is_settled (Order.fill calculate_brokerage o p).1.
Proof.
  unfold Order.fill, Order.is_settled.
  destruct (mul_int_float _ p) as [c|e]; [|discriminate].
  intros _. cbn. repeat split; by eexists.
Qed.

Lemma placed_states (calculate_brokerage : Order.t -> float) (o : Order.t) :
  Order.placed calculate_brokerage o ->
  Order.is_open o \/ Order.is_settled o.
Proof.
  induction 1 as [ticker action quantity price|o p _ _ Hret].
  - left. by repeat split.
  - right. by apply fill_returned_settled.
Qed.

(** X3: an order made by the constructor and filled any number of times by
    calls that returned is either open, with nothing of a fill recorded, or
    settled, with [filled_price], [cost], [brokerage] and [total] all set. *)
Theorem placed_open_or_settled (calculate_brokerage : Order.t -> float)
    (o : Order.t) :
  Order.placed calculate_brokerage o ->
  Order.is_open o \/ Order.is_settled o.
Proof.
  intros Hplaced.
  destruct (placed_states calculate_brokerage o Hplaced) as [Hopen|Hsettled].
  - by left.
  - by right.
Qed.

Lemma placed_open_or_settled_witness :
  Order.is_open Scenario.bought \/ Order.is_settled Scenario.bought.
Proof.
  apply (placed_open_or_settled Scenario.flat_fee).
  apply (Order.placed_fill Scenario.flat_fee Scenario.buy_100 5.1%float).
  - apply Order.placed_new.
  - reflexivity.
Defined.




(** With the limit of 4300 digits a new order for 10^4300 shares cannot be
    printed. *)
Example str_of_astronomic_order :
  exists msg,
    Order.__str__ 4300 Cases.round2 Cases.str_float Cases.buy_astronomic
    = inl (Order.ValueError msg).
Proof. eexists. vm_compute. reflexivity. Qed.



(** ** [Strategy.get_instrument]: views over time, and their independence *)

Lemma existed_at_later_date i d1 d2 :
  Instrument.existed_at_date i d1 = true -> (d1 <= d2)%Z ->
  Instrument.existed_at_date i d2 = true.
Proof.
  unfold Instrument.existed_at_date. rewrite !existsb_exists.
  intros (r & Hin & Hle%Z.leb_le) Hd. exists r. split; [done|].
  apply Z.leb_le. lia.
Qed.

Lemma not_existed_resolve_None i d :
  Instrument.existed_at_date i d = false ->
  Instrument.resolve d (Instrument.data i) = None.
Proof.
  intros Hex.
  destruct (Instrument.resolve d (Instrument.data i)) as [[k r]|] eqn:Hres;
    [|done].
  apply resolve_existed in Hres. congruence.
Qed.

Lemma filter_ext_elem_of {A : Type} (P Q : A -> Prop)
    `{forall x, Decision (P x)} `{forall x, Decision (Q x)} (l : list A) :
  (forall x, x ∈ l -> (P x <-> Q x)) -> filter P l = filter Q l.
Proof.
  induction l as [|x l IH]; intros Hext; [done|].
  assert (filter P l = filter Q l) as Htail.
  { apply IH. intros y Hy. apply Hext. by right. }
  destruct (decide (P x)) as [HP|HP].
  - rewrite !filter_cons_True; [by f_equal|by apply Hext; [left|]|done].
  - rewrite !filter_cons_False; [done| |done].
    intros HQ. apply HP, Hext; [left|done].
Qed.

Lemma filter_all {A : Type} (P : A -> Prop) `{forall x, Decision (P x)}
    (l : list A) :
  Forall P l -> filter P l = l.
Proof.
  induction 1 as [|x l HP _ IH]; [done|].
  rewrite filter_cons_True by done. by f_equal.
Qed.

(** In an ordered instrument a later day resolves to a later position. *)
Lemma ordered_resolve_mono i d1 d2 k1 r1 k2 r2 :
  Instrument.ordered i = true ->
  Instrument.resolve d1 (Instrument.data i) = Some (k1, r1) ->
  Instrument.resolve d2 (Instrument.data i) = Some (k2, r2) ->
  (d1 <= d2)%Z -> (k1 <= k2)%nat.
Proof.
  intros Hord H1 H2 Hd.
  pose proof (resolve_latest _ _ _ _ H2) as Hlatest.
  apply resolve_Some in H1 as [Hk1 Hle1]. apply resolve_Some in H2 as [Hk2 _].
  rewrite Forall_forall in Hlatest.
  assert (TimeRecord.date r1 <= TimeRecord.date r2)%Z as Hr.
  { apply Hlatest; [|lia]. apply list_elem_of_lookup. eauto. }
  destruct (decide (k1 <= k2)%nat) as [|Hgt]; [done|].
  assert (k2 < k1)%nat as Hlt by lia.
  pose proof (ordered_lookup _ _ _ _ _ Hord Hk2 Hk1 Hlt). lia.
Qed.

(** X6: as [today] advances the views only grow. For an instrument with
    strictly increasing dates, the data of the view taken at an earlier day
    is a prefix of the data of a view taken afterwards at a later day, and
    the two are equal when no record is dated between the two days. *)
Theorem views_grow_with_today (mkt : markets.t) (str_date : Z -> string)
    (s1 s2 : Strategy.t) (ticker : string) (h : gmap nat Instrument.t)
    (shared : nat) (i : Instrument.t) :
  markets.get_instrument mkt ticker = Ok shared ->
  h !! shared = Some i ->
  Instrument.ordered i = true ->
  Instrument.existed_at_date i (Strategy.today s1) = true ->
  (Strategy.today s1 <= Strategy.today s2)%Z ->
  let first := Strategy.get_instrument mkt str_date s1 ticker h in
  let second := Strategy.get_instrument mkt str_date s2 ticker first.1 in
  exists v1 v2 d1 d2,
    first.2 = Ok v1 /\ second.2 = Ok v2 /\
    second.1 !! v1 = Some (Instrument.mk (Instrument.ticker i) d1) /\
    second.1 !! v2 = Some (Instrument.mk (Instrument.ticker i) d2) /\
    d1 `prefix_of` d2 /\
    ((forall r, r ∈ Instrument.data i ->
                ~ (Strategy.today s1 < TimeRecord.date r
                   <= Strategy.today s2)%Z) ->
     d1 = d2).
Proof.
  intros Hlook Hobj Hord Hex1 Hdays first second.
  pose proof (existed_at_later_date _ _ _ Hex1 Hdays) as Hex2.
  destruct (existed_resolve _ _ Hex1) as (k1 & r1 & Hres1).
  destruct (existed_resolve _ _ Hex2) as (k2 & r2 & Hres2).
  assert (first = (<[fresh (dom h) := truncated i k1]> h, Ok (fresh (dom h))))
    as Hfirst by (by eapply get_instrument_resolved).
  assert (first.1 !! shared = Some i) as Hobj1.
  { rewrite Hfirst. by apply insert_fresh_preserves. }
  assert (second = (<[fresh (dom first.1) := truncated i k2]> first.1,
                    Ok (fresh (dom first.1)))) as Hsecond
    by (by eapply get_instrument_resolved).
  exists (fresh (dom h)), (fresh (dom first.1)),
    (take (S k1) (Instrument.data i)), (take (S k2) (Instrument.data i)).
  split; [by rewrite Hfirst|]. split; [by rewrite Hsecond|].
  split; [|split; [|split]].
  - rewrite Hsecond. cbn [fst]. apply insert_fresh_preserves.
    rewrite Hfirst. cbn [fst]. by rewrite lookup_insert_eq.
  - rewrite Hsecond. cbn [fst]. by rewrite lookup_insert_eq.
  - pose proof (ordered_resolve_mono _ _ _ _ _ _ _ Hord Hres1 Hres2 Hdays).
    replace (take (S k1) (Instrument.data i))
      with (take (S k1) (take (S k2) (Instrument.data i))).
    + apply prefix_take.
    + rewrite take_take. f_equal. lia.
  - intros Hnone.
    rewrite (ordered_take_resolved _ _ _ _ Hord Hres1),
      (ordered_take_resolved _ _ _ _ Hord Hres2).
    apply filter_ext_elem_of. intros r Hr. specialize (Hnone r Hr). lia.
Qed.

Lemma views_grow_with_today_witness :
  exists v1 v2 d1 d2,
    (Strategy.get_instrument Scenario.mkt Scenario.str_date
       (Scenario.strategy 737429) "ACME" Scenario.store).2 = Ok v1 /\
    (Strategy.get_instrument Scenario.mkt Scenario.str_date
       (Scenario.strategy 737431) "ACME"
       (Strategy.get_instrument Scenario.mkt Scenario.str_date
          (Scenario.strategy 737429) "ACME" Scenario.store).1).2 = Ok v2 /\
    (Strategy.get_instrument Scenario.mkt Scenario.str_date
       (Scenario.strategy 737431) "ACME"
       (Strategy.get_instrument Scenario.mkt Scenario.str_date
          (Scenario.strategy 737429) "ACME" Scenario.store).1).1 !! v1
    = Some (Instrument.mk "ACME" d1) /\
    (Strategy.get_instrument Scenario.mkt Scenario.str_date
       (Scenario.strategy 737431) "ACME"
       (Strategy.get_instrument Scenario.mkt Scenario.str_date
          (Scenario.strategy 737429) "ACME" Scenario.store).1).1 !! v2
    = Some (Instrument.mk "ACME" d2) /\
    d1 `prefix_of` d2.
Proof.
  destruct (views_grow_with_today Scenario.mkt Scenario.str_date
              (Scenario.strategy 737429) (Scenario.strategy 737431) "ACME"
              Scenario.store 0%nat Scenario.acme eq_refl eq_refl eq_refl
              eq_refl)
    as (v1 & v2 & d1 & d2 & H1 & H2 & Hv1 & Hv2 & Hprefix & _).
  { cbn. lia. }
  exists v1, v2, d1, d2. by repeat split.
Defined.

(** X7: two calls of [get_instrument] for the same ticker return two
    different new objects with the same contents, and neither is the store's
    object; rebinding the data of one of them changes neither the other view
    nor the store's instrument. *)
Theorem get_instrument_twice_independent (mkt : markets.t)
    (str_date : Z -> string) (self : Strategy.t) (ticker : string)
    (h : gmap nat Instrument.t) (shared : nat) (i : Instrument.t)
    (new_data : list TimeRecord.t) :
  markets.get_instrument mkt ticker = Ok shared ->
  h !! shared = Some i ->
  Instrument.existed_at_date i (Strategy.today self) = true ->
  let first := Strategy.get_instrument mkt str_date self ticker h in
  let second := Strategy.get_instrument mkt str_date self ticker first.1 in
  exists v1 v2 view,
    first.2 = Ok v1 /\ second.2 = Ok v2 /\
    v1 <> v2 /\ v1 <> shared /\ v2 <> shared /\
    second.1 !! v1 = Some view /\
    second.1 !! v2 = Some view /\
    second.1 !! shared = Some i /\
    (setattr_data v1 new_data second.1).1 !! v2 = Some view /\
    (setattr_data v1 new_data second.1).1 !! shared = Some i.
Proof.
  intros Hlook Hobj Hex first second.
  destruct (existed_resolve _ _ Hex) as (k & r & Hres).
  assert (first = (<[fresh (dom h) := truncated i k]> h, Ok (fresh (dom h))))
    as Hfirst by (by eapply get_instrument_resolved).
  assert (first.1 !! shared = Some i) as Hobj1.
  { rewrite Hfirst. by apply insert_fresh_preserves. }
  assert (first.1 !! fresh (dom h) = Some (truncated i k)) as Hv1.
  { rewrite Hfirst. cbn [fst]. by rewrite lookup_insert_eq. }
  assert (second = (<[fresh (dom first.1) := truncated i k]> first.1,
                    Ok (fresh (dom first.1)))) as Hsecond
    by (by eapply get_instrument_resolved).
  assert (fresh (dom h) <> fresh (dom first.1)) as Hne12.
  { intros Heq. rewrite Heq, fresh_lookup_None in Hv1. discriminate. }
  assert (fresh (dom h) <> shared) as Hne1.
  { intros Heq. rewrite <- Heq, fresh_lookup_None in Hobj. discriminate. }
  assert (fresh (dom first.1) <> shared) as Hne2.
  { intros Heq. rewrite <- Heq, fresh_lookup_None in Hobj1. discriminate. }
  assert (second.1 !! fresh (dom h) = Some (truncated i k)) as Hs1.
  { rewrite Hsecond. cbn [fst]. by apply insert_fresh_preserves. }
  assert (second.1 !! fresh (dom first.1) = Some (truncated i k)) as Hs2.
  { rewrite Hsecond. cbn [fst]. by rewrite lookup_insert_eq. }
  assert (second.1 !! shared = Some i) as Hs.
  { rewrite Hsecond. cbn [fst]. by apply insert_fresh_preserves. }
  exists (fresh (dom h)), (fresh (dom first.1)), (truncated i k).
  split; [by rewrite Hfirst|]. split; [by rewrite Hsecond|].
  do 6 (split; [done|]).
  unfold setattr_data. rewrite Hs1. cbn [fst].
  by rewrite !lookup_insert_ne.
Qed.

Lemma get_instrument_twice_independent_witness :
  exists v1 v2 view,
    (Strategy.get_instrument Scenario.mkt Scenario.str_date
       (Scenario.strategy 737429) "ACME" Scenario.store).2 = Ok v1 /\
    (Strategy.get_instrument Scenario.mkt Scenario.str_date
       (Scenario.strategy 737429) "ACME"
       (Strategy.get_instrument Scenario.mkt Scenario.str_date
          (Scenario.strategy 737429) "ACME" Scenario.store).1).2 = Ok v2 /\
    v1 <> v2 /\
    (Strategy.get_instrument Scenario.mkt Scenario.str_date
       (Scenario.strategy 737429) "ACME"
       (Strategy.get_instrument Scenario.mkt Scenario.str_date
          (Scenario.strategy 737429) "ACME" Scenario.store).1).1 !! v2
    = Some view.
Proof.
  destruct (get_instrument_twice_independent Scenario.mkt Scenario.str_date
              (Scenario.strategy 737429) "ACME" Scenario.store 0%nat
              Scenario.acme [] eq_refl eq_refl eq_refl)
    as (v1 & v2 & view & H1 & H2 & Hne & _ & _ & _ & Hv2 & _).
  exists v1, v2, view. by repeat split.
Defined.

(** ** [Share.get_value] and the views *)

Lemma get_value_resolved (mkt : markets.t) (sh : Share.t) (d : Z)
    (h : gmap nat Instrument.t) (shared : nat) (i : Instrument.t) :
  markets.get_instrument mkt (Share.ticker sh) = Ok shared ->
  h !! shared = Some i ->
  Share.get_value mkt sh d h
  = (h, match Instrument.get_day_or_last_before i d with
        | Ok day_data =>
            match Share.current_price day_data with
            | Ok x => mul_int_float (Share.quantity sh) x
            | Raise e => Raise e
            end
        | Raise e => Raise e
        end).
Proof.
  intros Hlook Hobj. unfold Share.get_value. unfold_M. rewrite Hlook, Hobj.
  destruct (Instrument.get_day_or_last_before i d) as [day_data|e]; [|done].
  by destruct (Share.current_price day_data).
Qed.

(** X8: the view that [get_instrument] returns is never empty, and its last
    record is the record from which [Share.get_value(today)] prices a share
    of the same ticker: valuing a holding at [today] uses nothing that the
    view does not show. *)
Theorem view_ends_at_valuation_record (mkt : markets.t)
    (str_date : Z -> string) (self : Strategy.t) (sh : Share.t)
    (h : gmap nat Instrument.t) (shared : nat) (i : Instrument.t) :
  markets.get_instrument mkt (Share.ticker sh) = Ok shared ->
  h !! shared = Some i ->
  Instrument.existed_at_date i (Strategy.today self) = true ->
  let got := Strategy.get_instrument mkt str_date self (Share.ticker sh) h in
  exists view records day_data,
    got.2 = Ok view /\
    got.1 !! view = Some (Instrument.mk (Instrument.ticker i) records) /\
    last records = Some day_data /\
    Share.get_value mkt sh (Strategy.today self) got.1
    = (got.1, match Share.current_price day_data with
              | Ok x => mul_int_float (Share.quantity sh) x
              | Raise e => Raise e
              end).
Proof.
  intros Hlook Hobj Hex got.
  destruct (existed_resolve _ _ Hex) as (k & r & Hres).
  assert (got = (<[fresh (dom h) := truncated i k]> h, Ok (fresh (dom h))))
    as Hgot by (by eapply get_instrument_resolved).
  destruct (resolve_Some _ _ _ _ Hres) as [Hk _].
  exists (fresh (dom h)), (take (S k) (Instrument.data i)), r.
  split; [by rewrite Hgot|]. split; [|split].
  - rewrite Hgot. cbn [fst]. by rewrite lookup_insert_eq.
  - rewrite last_lookup, length_take.
    apply lookup_lt_Some in Hk as Hlt.
    replace (Init.Nat.pred (S k `min` length (Instrument.data i))) with k
      by lia.
    rewrite lookup_take_lt by lia. done.
  - rewrite (get_value_resolved mkt sh _ got.1 shared i Hlook).
    + unfold Instrument.get_day_or_last_before. by rewrite Hres.
    + rewrite Hgot. by apply insert_fresh_preserves.
Qed.

Lemma view_ends_at_valuation_record_witness :
  exists view records day_data,
    (Strategy.get_instrument Scenario.mkt Scenario.str_date
       (Scenario.strategy 737429) "ACME" Scenario.store).2 = Ok view /\
    (Strategy.get_instrument Scenario.mkt Scenario.str_date
       (Scenario.strategy 737429) "ACME" Scenario.store).1 !! view
    = Some (Instrument.mk "ACME" records) /\
    last records = Some day_data.
Proof.
  destruct (view_ends_at_valuation_record Scenario.mkt Scenario.str_date
              (Scenario.strategy 737429) (Share.mk "ACME" 10 1%float)
              Scenario.store 0%nat Scenario.acme eq_refl eq_refl eq_refl)
    as (view & records & day_data & Hret & Hview & Hlast & _).
  exists view, records, day_data. by repeat split.
Defined.

(** X9: from the last date of an instrument on, nothing is cut: when the
    dates are strictly increasing and [today] is on or after the last one,
    the view holds the same records as the store's instrument. *)
Theorem view_complete_from_last_date (mkt : markets.t)
    (str_date : Z -> string) (self : Strategy.t) (ticker : string)
    (h : gmap nat Instrument.t) (shared : nat) (i : Instrument.t)
    (last_date : Z) :
  markets.get_instrument mkt ticker = Ok shared ->
  h !! shared = Some i ->
  Instrument.ordered i = true ->
  Instrument.get_last_date i = Some last_date ->
  (last_date <= Strategy.today self)%Z ->
  exists view,
    (Strategy.get_instrument mkt str_date self ticker h).2 = Ok view /\
    (Strategy.get_instrument mkt str_date self ticker h).1 !! view = Some i.
Proof.
  intros Hlook Hobj Hord Hlast Htoday.
  unfold Instrument.get_last_date in Hlast.
  rewrite fmap_last in Hlast.
  destruct (last (Instrument.data i)) as [rl|] eqn:Hrl; [|discriminate].
  injection Hlast as Hdate. rewrite last_lookup in Hrl.
  assert (Forall (fun r => (TimeRecord.date r <= Strategy.today self)%Z)
            (Instrument.data i)) as Hall.
  { apply Forall_forall. intros r [j Hj]%list_elem_of_lookup.
    apply lookup_lt_Some in Hj as Hlt.
    destruct (decide (j = Init.Nat.pred (length (Instrument.data i))))
      as [->|Hne].
    - assert (r = rl) as -> by congruence. lia.
    - assert (j < Init.Nat.pred (length (Instrument.data i)))%nat as Hjl
        by lia.
      pose proof (ordered_lookup _ _ _ _ _ Hord Hj Hrl Hjl). lia. }
  assert (Instrument.existed_at_date i (Strategy.today self) = true) as Hex.
  { unfold Instrument.existed_at_date. apply existsb_exists. exists rl.
    split; [|apply Z.leb_le; lia].
    apply list_elem_of_In, list_elem_of_lookup. eauto. }
  destruct (existed_resolve _ _ Hex) as (k & r & Hres).
  rewrite (get_instrument_resolved _ _ _ _ _ _ _ _ _ Hlook Hobj Hres).
  exists (fresh (dom h)). split; [done|]. cbn [fst].
  rewrite lookup_insert_eq. f_equal. unfold truncated, Instrument.set_data.
  rewrite (ordered_take_resolved _ _ _ _ Hord Hres), (filter_all _ _ Hall).
  by destruct i.
Qed.

Lemma view_complete_from_last_date_witness :
  exists view,
    (Strategy.get_instrument Scenario.mkt Scenario.str_date
       (Scenario.strategy 737431) "ACME" Scenario.store).2 = Ok view /\
    (Strategy.get_instrument Scenario.mkt Scenario.str_date
       (Scenario.strategy 737431) "ACME" Scenario.store).1 !! view
    = Some Scenario.acme.
Proof.
  apply (view_complete_from_last_date Scenario.mkt Scenario.str_date
           (Scenario.strategy 737431) "ACME" Scenario.store 0%nat
           Scenario.acme 737430 eq_refl eq_refl eq_refl eq_refl).
  cbn. lia.
Defined.

(** X10: the price falls back from [close] to [value] and no further: when
    the record that the date resolves to has neither, [get_value] raises the
    [KeyError] of the second lookup, the one for 'value'. *)
Theorem get_value_without_price (mkt : markets.t) (sh : Share.t) (d : Z)
    (h : gmap nat Instrument.t) (shared : nat) (i : Instrument.t)
    (day_data : TimeRecord.t) :
  markets.get_instrument mkt (Share.ticker sh) = Ok shared ->
  h !! shared = Some i ->
  Instrument.get_day_or_last_before i d = Ok day_data ->
  TimeRecord.close day_data = None ->
  TimeRecord.value day_data = None ->
  Share.get_value mkt sh d h = (h, Raise (KeyError "value")).
Proof.
  intros Hlook Hobj Hday Hclose Hvalue.
  rewrite (get_value_resolved mkt sh d h shared i Hlook Hobj), Hday.
  unfold Share.current_price, TimeRecord.getitem_close,
    TimeRecord.getitem_value. by rewrite Hclose, Hvalue.
Qed.

Lemma get_value_without_price_witness :
  Share.get_value Cases.mkt_gone (Share.mk "BARE" 10 1%float) 737431
    Cases.store
  = (Cases.store, Raise (KeyError "value")).
Proof.
  apply (get_value_without_price Cases.mkt_gone (Share.mk "BARE" 10 1%float)
           737431 Cases.store 2%nat Cases.bare
           (Scenario.row 737426 None None));
    reflexivity.
Defined.

(** ** [Strategy.get_instruments]: the heap, the views, the exceptions *)

Lemma get_instruments_leaves_store_object (mkt : markets.t)
    (str_date : Z -> string) (self : Strategy.t)
    (h : gmap nat Instrument.t) (l : nat) (i : Instrument.t) :
  h !! l = Some i ->
  (Strategy.get_instruments mkt str_date self h).1 !! l = Some i.
Proof. apply get_instruments_loop_preserves. Qed.

(** X11: [get_instruments] changes no object that was in the heap, the
    store's instruments among them, whatever the store lists and whether the
    call returns or raises. *)
Theorem get_instruments_leaves_store_unchanged (mkt : markets.t)
    (str_date : Z -> string) (self : Strategy.t)
    (h : gmap nat Instrument.t) (l : nat) (i : Instrument.t) :
  h !! l = Some i ->
  (Strategy.get_instruments mkt str_date self h).1 !! l = Some i.
Proof.
  intros Hl. unfold Strategy.get_instruments.
  by apply get_instruments_loop_preserves.
Qed.

Lemma get_instruments_leaves_store_unchanged_witness :
  (Strategy.get_instruments Cases.mkt_gone Scenario.str_date
     (Scenario.strategy 737431) Cases.store).1 !! 0%nat
  = Some Scenario.acme.
Proof.
  exact (get_instruments_leaves_store_unchanged Cases.mkt_gone
           Scenario.str_date (Scenario.strategy 737431) Cases.store 0%nat
           Scenario.acme eq_refl).
Defined.

(** X12: the views that [get_instruments] returns are objects made by the
    call, each one different from the others and not among the objects that
    were there before, and there are at most as many as the store lists
    tickers. *)
Theorem get_instruments_views_are_new (mkt : markets.t)
    (str_date : Z -> string) (self : Strategy.t)
    (h h' : gmap nat Instrument.t) (views : list nat) :
  Strategy.get_instruments mkt str_date self h = (h', Ok views) ->
  NoDup views /\
  (length views <= length (markets.get_tickers mkt))%nat /\
  Forall (fun v => h !! v = None /\ is_Some (h' !! v)) views.
Proof.
  intros Hrun.
  apply get_instruments_loop_new_views in Hrun
    as (views' & -> & Hlen & Hdup & Hall).
  done.
Qed.

Lemma get_instruments_views_are_new_witness :
  NoDup [2%nat; 3%nat] /\
  (length [2%nat; 3%nat] <= length ["ACME"; "ZETA"])%nat /\
  Forall (fun v =>
            Scenario.store !! v = None /\
            is_Some ((Strategy.get_instruments Scenario.mkt Scenario.str_date
                        (Scenario.strategy 737431) Scenario.store).1 !! v))
    [2%nat; 3%nat].
Proof.
  apply (get_instruments_views_are_new Scenario.mkt Scenario.str_date
           (Scenario.strategy 737431) Scenario.store
           (Strategy.get_instruments Scenario.mkt Scenario.str_date
              (Scenario.strategy 737431) Scenario.store).1
           [2%nat; 3%nat]).
  reflexivity.
Defined.

(** X13: [Share.get_value] changes nothing in the heap, and building views
    does not change a valuation: after [get_instruments], whatever it
    returned or raised, [get_value] gives what it gave before. *)
Theorem get_value_unaffected_by_views (mkt : markets.t)
    (str_date : Z -> string) (self : Strategy.t) (sh : Share.t) (d : Z)
    (h : gmap nat Instrument.t) (shared : nat) (i : Instrument.t) :
  markets.get_instrument mkt (Share.ticker sh) = Ok shared ->
  h !! shared = Some i ->
  (Share.get_value mkt sh d h).1 = h /\
  (Share.get_value mkt sh d
     (Strategy.get_instruments mkt str_date self h).1).2
  = (Share.get_value mkt sh d h).2.
Proof.
  intros Hlook Hobj.
  rewrite (get_value_resolved mkt sh d h shared i Hlook Hobj).
  split; [done|].
  rewrite (get_value_resolved mkt sh d _ shared i Hlook); [done|].
  by apply get_instruments_leaves_store_object.
Qed.

Lemma get_value_unaffected_by_views_witness :
  (Share.get_value Scenario.mkt (Share.mk "ZETA" 10 1%float) 737431
     (Strategy.get_instruments Scenario.mkt Scenario.str_date
        (Scenario.strategy 737431) Scenario.store).1).2
  = Ok 250%float.
Proof.
  rewrite (proj2 (get_value_unaffected_by_views Scenario.mkt
                    Scenario.str_date (Scenario.strategy 737431)
                    (Share.mk "ZETA" 10 1%float) 737431 Scenario.store
                    1%nat Scenario.zeta eq_refl eq_refl)).
  reflexivity.
Defined.

(** X14: the [except ValueError] of [get_instruments] also hides a
    [ValueError] of the store itself: a listed ticker for which
    [markets.get_instrument] raises [ValueError] is skipped like one that
    does not exist yet, and the call goes on as if the ticker were not
    listed. *)
Theorem get_instruments_skips_lookup_ValueError (mkt : markets.t)
    (str_date : Z -> string) (self : Strategy.t)
    (h : gmap nat Instrument.t) (pre post : list string) (t msg : string) :
  markets.get_tickers mkt = pre ++ t :: post ->
  markets.get_instrument mkt t = Raise (ValueError msg) ->
  Strategy.get_instruments mkt str_date self h
  = Strategy.get_instruments_loop mkt str_date self (pre ++ post) [] h.
Proof.
  intros Hlist Hlook. unfold Strategy.get_instruments.
  rewrite Hlist, !get_instruments_loop_app.
  destruct (Strategy.get_instruments_loop mkt str_date self pre [] h)
    as [h1 [acc1|e]]; [|done].
  cbn [Strategy.get_instruments_loop]. unfold bind, try_except_ValueError.
  by rewrite (get_instrument_unknown _ _ _ _ _ _ Hlook).
Qed.

Lemma get_instruments_skips_lookup_ValueError_witness :
  Strategy.get_instruments Cases.mkt_void Scenario.str_date
    (Scenario.strategy 737431) Cases.store
  = Strategy.get_instruments_loop Cases.mkt_void Scenario.str_date
      (Scenario.strategy 737431) (["ACME"] ++ ["ZETA"]) [] Cases.store.
Proof.
  exact (get_instruments_skips_lookup_ValueError Cases.mkt_void
           Scenario.str_date (Scenario.strategy 737431) Cases.store
           ["ACME"] ["ZETA"] "VOID" "no such paper" eq_refl eq_refl).
Defined.

(** X15: any other exception ends [get_instruments]: when the tickers
    listed before [t] have their instruments in the heap and
    [markets.get_instrument] raises for [t] an exception that is not a
    [ValueError], [get_instruments] raises that exception, and the views made
    so far are not returned. *)
Theorem get_instruments_raises_other_exceptions (mkt : markets.t)
    (str_date : Z -> string) (self : Strategy.t)
    (h : gmap nat Instrument.t) (pre post : list string) (t : string)
    (e : exn) :
  markets.get_tickers mkt = pre ++ t :: post ->
  Forall (fun t' => is_Some (shared_instrument mkt h t')) pre ->
  markets.get_instrument mkt t = Raise e ->
  (forall msg, e <> ValueError msg) ->
  (Strategy.get_instruments mkt str_date self h).2 = Raise e.
Proof.
  intros Hlist Hpre Hlook Hother. unfold Strategy.get_instruments.
  rewrite Hlist, get_instruments_loop_app.
  destruct (get_instruments_loop_views mkt str_date self pre h h [])
    as (h1 & views & -> & _ & _); [done..|].
  cbn [Strategy.get_instruments_loop]. unfold bind, try_except_ValueError.
  rewrite (get_instrument_unknown _ _ _ _ _ _ Hlook).
  destruct e as [msg| | | |]; try done. by destruct (Hother msg).
Qed.

Lemma get_instruments_raises_other_exceptions_witness :
  (Strategy.get_instruments Cases.mkt_gone Scenario.str_date
     (Scenario.strategy 737431) Cases.store).2
  = Raise (KeyError "GONE").
Proof.
  apply (get_instruments_raises_other_exceptions Cases.mkt_gone
           Scenario.str_date (Scenario.strategy 737431) Cases.store
           ["ACME"] ["ZETA"] "GONE" (KeyError "GONE")).
  - reflexivity.
  - repeat (constructor; [by eexists|]). constructor.
  - reflexivity.
  - discriminate.
Defined.

(** X16: on a day on which none of the listed tickers exists yet, before
    the first record of every instrument, [get_instruments] raises nothing
    and returns the empty list. *)
Theorem get_instruments_before_any_data (mkt : markets.t)
    (str_date : Z -> string) (self : Strategy.t)
    (h : gmap nat Instrument.t) :
  listed_tickers_loaded mkt h ->
  Forall (fun t => exists_at mkt (Strategy.today self) h t = false)
         (markets.get_tickers mkt) ->
  (Strategy.get_instruments mkt str_date self h).2 = Ok [].
Proof.
  intros Hloaded Hnone.
  destruct (get_instruments_views mkt str_date self h Hloaded)
    as (h' & views & -> & _ & Hviews). cbn [snd].
  assert (filter (fun t => exists_at mkt (Strategy.today self) h t = true)
                 (markets.get_tickers mkt) = []) as Hempty.
  { clear -Hnone. induction Hnone as [|t tickers Ht _ IH]; [done|].
    rewrite filter_cons_False; [done|]. by rewrite Ht. }
  rewrite Hempty in Hviews. by inversion Hviews.
Qed.

Lemma get_instruments_before_any_data_witness :
  (Strategy.get_instruments Scenario.mkt Scenario.str_date
     (Scenario.strategy 737425) Scenario.store).2 = Ok [].
Proof.
  apply (get_instruments_before_any_data Scenario.mkt Scenario.str_date
           (Scenario.strategy 737425) Scenario.store).
  - repeat (constructor; [by eexists|]). constructor.
  - repeat (constructor; [reflexivity|]). constructor.
Defined.

(** ** [Strategy.execute] over several days *)

(** X17: [execute] keeps no history: after two calls the strategy is as
    after the second alone, and however the calls follow the constructor the
    horizon [from_date], [to_date] stays the one the strategy was built
    with. *)
Theorem execute_last_call_wins (money money1 money2 : float)
    (portfolio portfolio1 portfolio2 : gmap string Share.t)
    (from_date to_date today1 today2 : Z) :
  let built := Strategy.__init__ money portfolio from_date to_date in
  let once := (Strategy.execute built today1 portfolio1 money1).1 in
  let twice := (Strategy.execute once today2 portfolio2 money2).1 in
  Strategy.today built = from_date /\
  twice = (Strategy.execute built today2 portfolio2 money2).1 /\
  Strategy.from_date twice = from_date /\
  Strategy.to_date twice = to_date.
Proof. repeat split. Qed.
